(** * A shallow embedding of the pyacp example agents and schema generator

    Sources embedded here:
    - [examples/agent.py]            : [ExampleAgent]
    - [examples/echo_agent.py]       : [EchoAgent]
    - [examples/client.py]           : [interactive_loop]
    - [scripts/gen_schema.py]        : the meta module writer, the rename map and
                                       [_rename_numbered_classes]
    - [examples/mini_swe_agent/agent.py] : [execute_action], [_confirm_action_sync],
                                       [MiniSweACPAgent.prompt], [newSession],
                                       [loadSession], [setSessionMode],
                                       [_extract_mode_from_blocks],
                                       [_extract_code_from_blocks]

    Python effects are modelled by a small state-and-exception monad: a
    computation threads the list of events it produced (notifications sent,
    coroutines scheduled) and ends either with a value or with a raised
    exception. *)

From Stdlib Require Import String Ascii List ZArith QArith Bool Lia.
From Stdlib Require Import DecimalNat Permutation Sorted.
From stdpp Require Import base gmap strings list_numbers.
Import ListNotations.
Set Warnings "-register-all".
Open Scope string_scope.

(* ------------------------------------------------------------------ *)
(** ** Python values used by the sources *)

(** A JSON value as [json.loads] returns it: objects are kept as the list
    of their (key, value) pairs in document order. *)
Inductive json : Type :=
| JNull
| JBool (b : bool)
| JInt (z : Z)
| JFloat (q : Q)             (* a finite float, as the rational it denotes *)
| JNaN                       (* [NaN], which [json.loads] accepts *)
| JInf (neg : bool)          (* [Infinity] / [-Infinity], or a literal too large for a float *)
| JStr (s : string)
| JArr (l : list json)
| JObj (kvs : list (string * json)).

(** [d.get(k, default)] on the dict that [json.loads] builds from the pairs
    [kvs]: a later duplicate key overwrites an earlier one. *)
Fixpoint dict_lookup (kvs : list (string * json)) (k : string) : option json :=
  match kvs with
  | [] => None
  | (k', v) :: rest =>
      match dict_lookup rest k with
      | Some w => Some w
      | None => if String.eqb k k' then Some v else None
      end
  end.

Definition dict_get (kvs : list (string * json)) (k : string) (default : json) : json :=
  match dict_lookup kvs k with Some v => v | None => default end.

(** Decimal rendering of a natural number, as [f"{n}"] / [str(n)] does. *)
Fixpoint uint_to_string (d : Decimal.uint) : string :=
  match d with
  | Decimal.Nil => ""
  | Decimal.D0 d => String "0" (uint_to_string d)
  | Decimal.D1 d => String "1" (uint_to_string d)
  | Decimal.D2 d => String "2" (uint_to_string d)
  | Decimal.D3 d => String "3" (uint_to_string d)
  | Decimal.D4 d => String "4" (uint_to_string d)
  | Decimal.D5 d => String "5" (uint_to_string d)
  | Decimal.D6 d => String "6" (uint_to_string d)
  | Decimal.D7 d => String "7" (uint_to_string d)
  | Decimal.D8 d => String "8" (uint_to_string d)
  | Decimal.D9 d => String "9" (uint_to_string d)
  end.

Definition py_str_nat (n : nat) : string := uint_to_string (Nat.to_uint n).

(** Reading the digits back. *)
Fixpoint string_to_uint (s : string) : option Decimal.uint :=
  match s with
  | EmptyString => Some Decimal.Nil
  | String c rest =>
      match string_to_uint rest with
      | None => None
      | Some d =>
          if Ascii.eqb c "0" then Some (Decimal.D0 d)
          else if Ascii.eqb c "1" then Some (Decimal.D1 d)
          else if Ascii.eqb c "2" then Some (Decimal.D2 d)
          else if Ascii.eqb c "3" then Some (Decimal.D3 d)
          else if Ascii.eqb c "4" then Some (Decimal.D4 d)
          else if Ascii.eqb c "5" then Some (Decimal.D5 d)
          else if Ascii.eqb c "6" then Some (Decimal.D6 d)
          else if Ascii.eqb c "7" then Some (Decimal.D7 d)
          else if Ascii.eqb c "8" then Some (Decimal.D8 d)
          else if Ascii.eqb c "9" then Some (Decimal.D9 d)
          else None
      end
  end.

(* ------------------------------------------------------------------ *)
(** ** The protocol schema (the classes the examples construct) *)

(** [ContentBlock1..5] after the generator's renaming; only the field the
    examples read ([text]) is kept. *)
Inductive ContentBlock : Type :=
| TextContentBlock (text : string)
| ImageContentBlock
| AudioContentBlock
| ResourceContentBlock
| EmbeddedResourceContentBlock.

(** [ToolCallStatus] of the generated schema: the literals that the
    protocol's schema allows for a tool call's [status] (the generator runs
    with [--enum-field-as-literal all], so the field is a [Literal] that
    pydantic checks on construction).  ["cancelled"] is not among them. *)
Inductive ToolCallStatus : Type := pending | in_progress | completed | failed.

(** Pydantic's validation of a [str] passed as [status=...]: [None] is a
    [ValidationError]. *)
Definition tool_call_status (s : string) : option ToolCallStatus :=
  if String.eqb s "pending" then Some pending
  else if String.eqb s "in_progress" then Some in_progress
  else if String.eqb s "completed" then Some completed
  else if String.eqb s "failed" then Some failed
  else None.

(** [SessionUpdate1..8] after the generator's renaming. *)
Inductive SessionUpdate : Type :=
| UserMessageChunk (content : ContentBlock)
| AgentMessageChunk (content : ContentBlock)
| AgentThoughtChunk (content : ContentBlock)
| ToolCallStart (tool_call_id : string) (title : string) (status : ToolCallStatus)
| ToolCallProgress (tool_call_id : string) (status : ToolCallStatus)
| AgentPlan
| AvailableCommandsUpdate
| CurrentModeUpdate.

Record SessionNotification : Type := {
  sn_session_id : string;
  sn_update : SessionUpdate;
}.

Record InitializeRequest : Type := {
  ireq_protocol_version : Z;
}.

Record InitializeResponse : Type := {
  protocol_version : Z;
  agent_capabilities : option unit;   (* [None] is [agent_capabilities=None] *)
  auth_methods : list string;
}.

Inductive StopReason : Type := end_turn | max_tokens | refusal | cancelled_turn.

Record PromptResponse : Type := { stop_reason : StopReason }.

(** A prompt block as the example handlers see it: a pydantic model, or a
    raw dict (which the handlers tolerate). *)
Inductive PromptBlock : Type :=
| ModelBlock (b : ContentBlock)
| RawBlock (d : list (string * json)).

Record PromptRequest : Type := {
  preq_session_id : string;
  preq_prompt : list PromptBlock;
}.

(** Modelled from the spec: [PROTOCOL_VERSION] of the generated module
    [acp.meta], which is not in the sources; the spec's initialize roundtrip
    (S1) has the agent answer [protocol_version=1]. *)
Definition PROTOCOL_VERSION : Z := 1.

(* ------------------------------------------------------------------ *)
(** ** Python exceptions and the effect monad *)

Inductive exc : Type :=
| ValidationError                     (* pydantic rejected a field *)
| ReError                             (* re.error: pattern does not compile *)
| ValueError
| TypeError
| AttributeError
| OverflowError
| NonTerminatingException (msg : string)
| Submitted (msg : string)
| LimitsExceeded (msg : string)
| OtherException (msg : string)       (* any other subclass of Exception *)
| BaseExceptionOnly (msg : string).   (* KeyboardInterrupt, CancelledError, ... *)

(** [isinstance(e, Exception)]. *)
Definition is_Exception (e : exc) : bool :=
  match e with BaseExceptionOnly _ => false | _ => true end.

Inductive outcome (A : Type) : Type :=
| Ok (a : A)
| Raise (e : exc).
Arguments Ok {A} a.
Arguments Raise {A} e.

Module Py.
(** A computation over a state [S] (for the examples, the list of events
    produced so far, or the agent's tables together with that list). *)
Definition M (S A : Type) : Type := S -> outcome A * S.

Definition ret {S A} (a : A) : M S A := fun st => (Ok a, st).
Definition raise {S A} (e : exc) : M S A := fun st => (Raise e, st).
Definition bind {S A B} (m : M S A) (k : A -> M S B) : M S B :=
  fun st => match m st with
            | (Ok a, st') => k a st'
            | (Raise e, st') => (Raise e, st')
            end.
Definition get {S} : M S S := fun st => (Ok st, st).
Definition modify {S} (f : S -> S) : M S unit := fun st => (Ok tt, f st).
(** Appending one event to a log. *)
Definition emit {E} (ev : E) : M (list E) unit := modify (fun log => app log [ev]).
(** [try: m except e: h e]; the handler decides whether to catch [e]. *)
Definition try_except {S A} (m : M S A) (h : exc -> option (M S A)) : M S A :=
  fun st => match m st with
            | (Raise e, st') =>
                match h e with Some k => k st' | None => (Raise e, st') end
            | r => r
            end.
(** Lift a value that may carry a raised exception. *)
Definition of_outcome {S A} (o : outcome A) : M S A :=
  fun st => (o, st).
End Py.

Notation "m ;;; k" := (Py.bind m (fun _ => k)) (at level 100, right associativity).
Notation "'let!' x := m 'in' k" := (Py.bind m (fun x => k))
  (at level 200, x name, m at level 200, k at level 200).


(* ------------------------------------------------------------------ *)
(** ** [examples/agent.py]: [ExampleAgent] *)

Module ExampleAgent.
Record t : Type := { next_session_id : nat }.

Definition init : t := {| next_session_id := 0 |}.

(** [initialize]: the request is ignored. *)
Definition initialize (params : InitializeRequest) : InitializeResponse :=
  {| protocol_version := PROTOCOL_VERSION;
     agent_capabilities := None;
     auth_methods := [] |}.

(** [newSession]: [f"sess-{self._next_session_id}"], then increment. *)
Definition newSession (self : t) : string * t :=
  ("sess-" ++ py_str_nat self.(next_session_id),
   {| next_session_id := S self.(next_session_id) |}).

(** Text echoed for one block of the prompt. [str()] of a JSON string is
    the string itself; [str_other] is Python's [str()] on any other JSON
    value. *)
Definition py_str (str_other : json -> string) (v : json) : string :=
  match v with JStr s => s | _ => str_other v end.

Definition block_text (str_other : json -> string) (b : PromptBlock) : string :=
  match b with
  | RawBlock d =>
      match dict_lookup d "type" with
      | Some (JStr ty) =>
          if String.eqb ty "text"
          then py_str str_other (dict_get d "text" (JStr ""))
          else "<" ++ ty ++ ">"
      | Some v => "<" ++ py_str str_other v ++ ">"
      | None => "<content>"
      end
  | ModelBlock (TextContentBlock s) => s
  | ModelBlock _ => "<content>"
  end.

Definition sessionUpdate (n : SessionNotification) : Py.M (list SessionNotification) unit :=
  Py.emit n.

(** [prompt]: the prefix chunk, then one chunk per block. *)
Definition prompt (str_other : json -> string) (params : PromptRequest)
  : Py.M (list SessionNotification) PromptResponse :=
  let sid := params.(preq_session_id) in
  sessionUpdate {| sn_session_id := sid;
                   sn_update := AgentMessageChunk (TextContentBlock "Client sent: ") |} ;;;
  fold_right
    (fun b rest =>
       sessionUpdate {| sn_session_id := sid;
                        sn_update := AgentMessageChunk (TextContentBlock (block_text str_other b)) |} ;;;
       rest)
    (Py.ret {| stop_reason := end_turn |})
    params.(preq_prompt).
End ExampleAgent.

(* ------------------------------------------------------------------ *)
(** ** [examples/agent.py]: a run of several [newSession] calls *)

(** The identifiers returned by [n] successive [newSession] calls on one
    instance, in call order, and the instance afterwards. *)
Fixpoint newSessions (self : ExampleAgent.t) (n : nat) : list string * ExampleAgent.t :=
  match n with
  | O => ([], self)
  | S n' =>
      let (sid, self') := ExampleAgent.newSession self in
      let (rest, self'') := newSessions self' n' in
      (sid :: rest, self'')
  end.

(* ------------------------------------------------------------------ *)
(** ** [examples/echo_agent.py]: [EchoAgent] *)

Module EchoAgent.
(** [initialize]: [InitializeResponse(protocol_version=params.protocol_version)];
    the other fields keep their schema defaults, which are not in the
    sources, so only the version it sets is modelled. *)
Definition initialize (params : InitializeRequest) : Z :=
  params.(ireq_protocol_version).

(** [block.get("text", "") if isinstance(block, dict) else getattr(block, "text", "")];
    [TextContentBlock(text=...)] rejects a value that is not a string. *)
Definition block_text (b : PromptBlock) : outcome string :=
  match b with
  | RawBlock d =>
      match dict_get d "text" (JStr "") with
      | JStr s => Ok s
      | _ => Raise ValidationError
      end
  | ModelBlock (TextContentBlock s) => Ok s
  | ModelBlock _ => Ok ""
  end.

(** [prompt]: one [AgentMessageChunk] per block. *)
Definition prompt (params : PromptRequest) : Py.M (list SessionNotification) PromptResponse :=
  let sid := params.(preq_session_id) in
  fold_right
    (fun b rest =>
       match block_text b with
       | Ok text =>
           Py.emit {| sn_session_id := sid;
                      sn_update := AgentMessageChunk (TextContentBlock text) |} ;;;
           rest
       | Raise e => Py.raise e
       end)
    (Py.ret {| stop_reason := end_turn |})
    params.(preq_prompt).
End EchoAgent.

(** The session/prompt request of scenario S2. *)
Definition S2_request : PromptRequest :=
  {| preq_session_id := "sess-0";
     preq_prompt := [ModelBlock (TextContentBlock "hi")] |}.

Definition chunk (sid text : string) : SessionNotification :=
  {| sn_session_id := sid; sn_update := AgentMessageChunk (TextContentBlock text) |}.

Definition is_agent_message_chunk (n : SessionNotification) : bool :=
  match n.(sn_update) with AgentMessageChunk _ => true | _ => false end.

(* ------------------------------------------------------------------ *)
(** ** [scripts/gen_schema.py] *)

Module GenSchema.
(** The three constants of the written [meta.py].  The module text holds
    [repr] of the tables; for a value built by [json.loads] without [NaN]
    or infinities that literal reads back as an equal value, so the
    constants are recorded as values. *)
Record MetaModule : Type := {
  AGENT_METHODS : json;
  CLIENT_METHODS : json;
  PROTOCOL_VERSION : Z;
}.

(** Python's [int(v)] on a value built by [json.loads]; [int_of_str] is
    [int()] on a [str] ([None] when it raises [ValueError]). *)
Definition py_int (int_of_str : string -> option Z) (v : json) : outcome Z :=
  match v with
  | JInt z => Ok z
  | JBool b => Ok (if b then 1%Z else 0%Z)
  | JFloat q => Ok (Z.quot (Qnum q) (Zpos (Qden q)))
  | JNaN => Raise ValueError           (* cannot convert float NaN to integer *)
  | JInf _ => Raise OverflowError      (* cannot convert float infinity to integer *)
  | JStr s => match int_of_str s with Some z => Ok z | None => Raise ValueError end
  | JNull | JArr _ | JObj _ => Raise TypeError
  end.

(** The second half of [main]: from the fetched meta document to the
    written [meta.py]; [Raise] when the f-string raises, in which case
    nothing is written. *)
Definition write_meta (int_of_str : string -> option Z) (meta_data : json)
  : outcome MetaModule :=
  match meta_data with
  | JObj kvs =>
      let agent_methods := dict_get kvs "agentMethods" (JObj []) in
      let client_methods := dict_get kvs "clientMethods" (JObj []) in
      let version := dict_get kvs "version" (JInt 1) in
      match py_int int_of_str version with
      | Ok v => Ok {| AGENT_METHODS := agent_methods;
                      CLIENT_METHODS := client_methods;
                      PROTOCOL_VERSION := v |}
      | Raise e => Raise e
      end
  | _ => Raise AttributeError     (* [.get] on a value that is not a dict *)
  end.

(** [_rename_numbered_classes]'s [rename_map], in source order. *)
Definition rename_map : list (string * string) :=
  [ ("SessionUpdate1", "UserMessageChunk");
    ("SessionUpdate2", "AgentMessageChunk");
    ("SessionUpdate3", "AgentThoughtChunk");
    ("SessionUpdate4", "ToolCallStart");
    ("SessionUpdate5", "ToolCallProgress");
    ("SessionUpdate6", "AgentPlan");
    ("SessionUpdate7", "AvailableCommandsUpdate");
    ("SessionUpdate8", "CurrentModeUpdate");
    ("ContentBlock1", "TextContentBlock");
    ("ContentBlock2", "ImageContentBlock");
    ("ContentBlock3", "AudioContentBlock");
    ("ContentBlock4", "ResourceContentBlock");
    ("ContentBlock5", "EmbeddedResourceContentBlock");
    ("ToolCallContent1", "ContentToolCallContent");
    ("ToolCallContent2", "FileEditToolCallContent");
    ("ToolCallContent3", "TerminalToolCallContent");
    ("RequestPermissionOutcome1", "DeniedOutcome");
    ("RequestPermissionOutcome2", "AllowedOutcome");
    ("McpServer1", "HttpMcpServer");
    ("McpServer2", "SseMcpServer");
    ("McpServer3", "StdioMcpServer");
    ("AvailableCommandInput1", "CommandInputHint") ].

(** The entries of the map whose old name starts with [pre]. *)
Definition entries_with_prefix (pre : string) : list (string * string) :=
  filter (fun kv => String.prefix pre (fst kv)) rename_map.
End GenSchema.

(* ------------------------------------------------------------------ *)
(** ** String helpers for [examples/mini_swe_agent/agent.py] *)

(** [str.isspace] on an ASCII character: [\t \n \x0b \x0c \r], the
    separators [\x1c]..[\x1f], and the space. *)
Definition is_py_space (c : ascii) : bool :=
  let n := nat_of_ascii c in
  (Nat.leb 9 n && Nat.leb n 13) || (Nat.leb 28 n && Nat.leb n 32).

Fixpoint py_lstrip (s : string) : string :=
  match s with
  | EmptyString => EmptyString
  | String c rest => if is_py_space c then py_lstrip rest else s
  end.

Definition py_rstrip (s : string) : string :=
  string_of_list_ascii
    (rev (list_ascii_of_string (py_lstrip (string_of_list_ascii (rev (list_ascii_of_string s)))))).

(** [str.strip()] for ASCII text. *)
Definition py_strip (s : string) : string := py_rstrip (py_lstrip s).

(** [sub in s]. *)
Fixpoint py_contains (sub s : string) : bool :=
  String.prefix sub s ||
  match s with EmptyString => false | String _ rest => py_contains sub rest end.

(** [str.lower()] for ASCII text. *)
Fixpoint py_lower (s : string) : string :=
  match s with
  | EmptyString => EmptyString
  | String c rest =>
      let n := nat_of_ascii c in
      String (if Nat.leb 65 n && Nat.leb n 90 then ascii_of_nat (n + 32)%nat else c) (py_lower rest)
  end.

Definition py_truthy_str (s : string) : bool := negb (String.eqb s "").

(* ------------------------------------------------------------------ *)
(** ** [examples/mini_swe_agent/agent.py]: [_StreamingMiniAgent] *)

(** What the mini-SWE code does that the client can observe, in order. *)
Inductive ev : Type :=
| Scheduled (u : SessionUpdate)      (* [self._schedule(self._send(u))] or a task sending [u] *)
| Sent (n : SessionNotification)     (* an awaited [client.sessionUpdate(n)] *)
| PermissionRequested (tool_call_id command : string)
| BaseExecute (command : string)     (* [super().execute_action(action)] is called *)
| Message (role content : string)    (* [agent.add_message(role, content)] *)
| QueryCalled                        (* [agent.query] is called *)
| ObservationCalled.                 (* [agent.get_observation(response)] is called *)

(** [RequestPermissionOutcome1/2] after renaming. *)
Inductive PermissionOutcome : Type :=
| DeniedOutcome
| AllowedOutcome (option_id : string).

(** The dict returned by mini-swe-agent's [execute_action]. *)
Record ExecResult : Type := { output : string; returncode : Z }.

Section StreamingAgent.
(** [re.match(pattern, command)] as a truth value; [Raise] when the
    pattern is rejected (for instance [re.error] on a pattern that does
    not compile). *)
Variable re_match : string -> string -> outcome bool.

(** [any(re.match(r, command) for r in whitelist)], evaluated lazily. *)
Fixpoint any_match (whitelist : list string) (command : string) : outcome bool :=
  match whitelist with
  | [] => Ok false
  | r :: rest =>
      match re_match r command with
      | Ok true => Ok true
      | Ok false => any_match rest command
      | Raise e => Raise e
      end
  end.

Definition on_tool_start (title command tool_call_id : string) : Py.M (list ev) unit :=
  Py.emit (Scheduled (ToolCallStart tool_call_id title pending)).

(** [self._schedule(self.on_tool_complete(tool_call_id, ..., status=status))]:
    the coroutine builds [ToolCallProgress(status=status)] when the loop
    runs it.  A status the schema rejects raises [ValidationError] inside
    the coroutine; the exception only reaches the future that
    [_schedule] returns and the caller drops, so nothing is sent. *)
Definition on_tool_complete (tool_call_id : string) (status : string) : Py.M (list ev) unit :=
  match tool_call_status status with
  | Some st => Py.emit (Scheduled (ToolCallProgress tool_call_id st))
  | None => Py.ret tt
  end.

(** [_confirm_action_sync]: [resp] is what [fut.result()] gives: the
    client's response outcome, or the exception it raises. *)
Definition confirm_action_sync (tool_call_id command : string)
  (resp : outcome PermissionOutcome) : Py.M (list ev) bool :=
  Py.emit (PermissionRequested tool_call_id command) ;;;
  match resp with
  | Raise e => if is_Exception e then Py.ret false else Py.raise e
  | Ok DeniedOutcome => Py.ret false
  | Ok (AllowedOutcome oid) =>
      Py.ret (String.eqb oid "allow-once" || String.eqb oid "allow-always")
  end.

Definition cancel_keys : list string :=
  ["Command not executed"; "Switching to human mode";
   "switched to manual mode"; "Interrupted by user"].

(** [any(key in msg for key in (...))] of the [NonTerminatingException]
    handler. *)
Definition is_cancel_msg (msg : string) : bool :=
  existsb (fun key => py_contains key msg) cancel_keys.

Definition denied_msg : string := "Command not executed: denied by user".

Definition tool_id_of (tool_seq : nat) (uuid8 : string) : string :=
  "mini-bash-" ++ py_str_nat (S tool_seq) ++ "-" ++ uuid8.

(** The [try] block of [execute_action]. *)
Definition execute_try (tool_id command : string) (base : outcome ExecResult)
  : Py.M (list ev) ExecResult :=
  Py.emit (Scheduled (ToolCallProgress tool_id in_progress)) ;;;
  Py.emit (BaseExecute command) ;;;
  let! result := Py.of_outcome base in
  on_tool_complete tool_id "completed" ;;;
  Py.ret result.

(** Its [except] clauses, in source order; [None] lets [e] through. *)
Definition execute_except (tool_id : string) (e : exc) : option (Py.M (list ev) ExecResult) :=
  match e with
  | Submitted _ => Some (on_tool_complete tool_id "completed" ;;; Py.raise e)
  | NonTerminatingException msg =>
      let status := if is_cancel_msg msg then "cancelled" else "failed" in
      Some (on_tool_complete tool_id status ;;; Py.raise e)
  | _ => if is_Exception e
         then Some (on_tool_complete tool_id "failed" ;;; Py.raise e)
         else None
  end.

(** [execute_action].  [tool_seq] is [self._tool_seq] before the call,
    [uuid8] the [uuid4().hex[:8]] drawn, [command] is
    [action.get("action", "")], [resp] the permission response and [base]
    the outcome of mini-swe-agent's own [execute_action]. *)
Definition execute_action (whitelist : list string) (tool_seq : nat) (uuid8 : string)
  (command : string) (resp : outcome PermissionOutcome) (base : outcome ExecResult)
  : Py.M (list ev) ExecResult :=
  let tool_id := tool_id_of tool_seq uuid8 in
  on_tool_start "bash" command tool_id ;;;
  (if py_truthy_str (py_strip command) then
     let! m := Py.of_outcome (any_match whitelist command) in
     if m then Py.ret tt else
     (let! allowed := confirm_action_sync tool_id command resp in
      if allowed then Py.ret tt else
      (on_tool_complete tool_id "cancelled" ;;;
       Py.raise (NonTerminatingException denied_msg)))
   else Py.ret tt) ;;;
  Py.try_except (execute_try tool_id command base) (execute_except tool_id).
End StreamingAgent.

(** Python's [re.match] on the whitelist patterns used below: [re.compile]
    rejects the pattern ["("] ("missing ), unterminated subpattern"), and a
    pattern without metacharacters matches a prefix of the command. *)
Definition re_match_plain (pattern command : string) : outcome bool :=
  if String.eqb pattern "(" then Raise ReError else Ok (String.prefix pattern command).

(** Whether the permission response lets [_confirm_action_sync] return
    [True]. *)
Definition permission_allows (resp : outcome PermissionOutcome) : bool :=
  match resp with
  | Ok (AllowedOutcome oid) => String.eqb oid "allow-once" || String.eqb oid "allow-always"
  | _ => false
  end.

(** The last element of a list of events. *)
Fixpoint last_event (l : list ev) : option ev :=
  match l with
  | [] => None
  | [e] => Some e
  | _ :: rest => last_event rest
  end.

(** The statuses that close a tool call. *)
Definition is_final_status (st : ToolCallStatus) : bool :=
  match st with completed | failed => true | _ => false end.

(** Whether the [except] clauses of [execute_action] schedule a final
    update the schema accepts once the command has run with outcome
    [base]: not for a [NonTerminatingException] whose message asks for
    ["cancelled"], nor for an error outside [Exception], which no clause
    catches. *)
Definition closes_after_execute (base : outcome ExecResult) : bool :=
  match base with
  | Ok _ => true
  | Raise (NonTerminatingException msg) => negb (is_cancel_msg msg)
  | Raise e => is_Exception e
  end.

(* ------------------------------------------------------------------ *)
(** ** [examples/mini_swe_agent/agent.py]: [MiniSweACPAgent] *)

(** [ACPAgentConfig]. *)
Record ACPAgentConfig : Type := {
  mode : string;
  whitelist_actions : list string;
  confirm_exit : bool;
}.

Definition default_config : ACPAgentConfig :=
  {| mode := "confirm"; whitelist_actions := []; confirm_exit := true |}.

(** The part of a [_StreamingMiniAgent] that the handlers change. *)
Record AgentSt : Type := { emit_updates : bool }.

(** A value of [self._sessions]: the dict with keys [cwd], [agent], [task],
    [config]. *)
Record Session : Type := {
  cwd : string;
  agent : option AgentSt;
  task : option string;
  config : ACPAgentConfig;
}.

Record MState : Type := {
  sessions : gmap string Session;
  log : list ev;
}.

(** The process environment read by [newSession] and [loadSession]. *)
Record Env : Type := {
  MINI_SWE_WHITELIST : option string;
  MINI_SWE_CONFIRM_EXIT : option string;
}.

Section MiniSweAgent.
(** [list(_json.loads(wl))] for the whitelist variable. *)
Variable json_loads_list : string -> outcome (list string).

(** The config built in [newSession] and [loadSession]. *)
Definition config_from_env (env : Env) : ACPAgentConfig :=
  let wl := match MINI_SWE_WHITELIST env with Some s => s | None => "[]" end in
  let wls := if py_truthy_str wl
             then match json_loads_list wl with Ok l => l | Raise _ => [] end
             else [] in
  let ce := match MINI_SWE_CONFIRM_EXIT env with
            | Some v => negb (existsb (String.eqb (py_lower v)) ["0"; "false"; "no"])
            | None => true
            end in
  {| mode := "confirm"; whitelist_actions := wls; confirm_exit := ce |}.

(** The request as [loadSession] reads it: [params.session_id] and
    [params.cwd] when both attributes exist, otherwise the [getattr]
    fallbacks. *)
Record LoadParams : Type := {
  lp_session_id : option string;
  lp_cwd : option string;
  lp_sessionId : option string;
}.

Definition load_session_key (process_cwd : string) (params : LoadParams) : string * string :=
  match lp_session_id params, lp_cwd params with
  | Some sid, Some c => (sid, c)
  | _, _ =>
      (match lp_sessionId params with Some s => s | None => "sess-unknown" end,
       match lp_cwd params with Some c => c | None => process_cwd end)
  end.

(** [loadSession]: the session table afterwards. *)
Definition loadSession (env : Env) (process_cwd : string) (params : LoadParams)
  (tbl : gmap string Session) : gmap string Session :=
  let (session_id, c) := load_session_key process_cwd params in
  match tbl !! session_id with
  | Some _ => tbl
  | None =>
      <[session_id := {| cwd := c; agent := None; task := None;
                         config := config_from_env env |}]> tbl
  end.
End MiniSweAgent.

(** [MiniSweACPAgent.initialize] (capabilities present, shown as [Some tt]). *)
Definition miniswe_initialize (params : InitializeRequest) : InitializeResponse :=
  {| protocol_version := PROTOCOL_VERSION;
     agent_capabilities := Some tt;
     auth_methods := [] |}.

(** What [MiniSweACPAgent.prompt] gets from the code it calls outside this
    file: mini-swe-agent's construction, templates, model and environment,
    and the client connection. *)
Record PromptOracles : Type := {
  o_process_cwd : string;              (* [str(Path.cwd().resolve())] *)
  o_create : outcome unit;             (* imports and [_StreamingMiniAgent()] *)
  o_render_system : outcome string;    (* [agent.render_template(system_template)] *)
  o_render_instance : outcome string;  (* [agent.render_template(instance_template)] *)
  o_query : outcome string;            (* the model's reply, or what [query] raises *)
  o_cost_text : string;                (* [f"__COST__:{cost:.2f}"] *)
  o_observation : outcome unit;        (* [agent.get_observation(response)] *)
  o_send : outcome unit;               (* each awaited [client.sessionUpdate] *)
  o_findall_bash : string -> list string;  (* [re.findall(r"```bash\n(.*?)\n```", t, re.DOTALL)] *)
}.

Definition exc_str (e : exc) : string :=
  match e with
  | NonTerminatingException m | Submitted m | LimitsExceeded m
  | OtherException m | BaseExceptionOnly m => m
  | ValidationError => "validation error"
  | ReError => "re.error"
  | ValueError => "ValueError"
  | TypeError => "TypeError"
  | AttributeError => "AttributeError"
  | OverflowError => "OverflowError"
  end.

Fixpoint py_join (sep : string) (l : list string) : string :=
  match l with
  | [] => ""
  | [x] => x
  | x :: rest => x ++ sep ++ py_join sep rest
  end.

(** The text blocks of a prompt ([getattr(block, "type", None) == "text"];
    a raw dict has no attribute [type]). *)
Definition text_of_block (b : PromptBlock) : option string :=
  match b with ModelBlock (TextContentBlock t) => Some t | _ => None end.

(** The task built from the first prompt of a conversation. *)
Definition build_task (blocks : list PromptBlock) : string :=
  let parts := flat_map (fun b => match text_of_block b with
                                  | Some t => if py_truthy_str t &&
                                                 negb (String.prefix "[[MODE:" (py_strip t))
                                              then [t] else []
                                  | None => []
                                  end) blocks in
  let t := py_strip (py_join (String "010" "") parts) in
  if py_truthy_str t then t else "Help me with the current repository.".

(** [_extract_code_from_blocks]. *)
Fixpoint extract_code (findall : string -> list string) (blocks : list PromptBlock) : option string :=
  match blocks with
  | [] => None
  | b :: rest =>
      match text_of_block b with
      | Some t => match findall t with
                  | a :: _ => Some (py_strip a)
                  | [] => extract_code findall rest
                  end
      | None => extract_code findall rest
      end
  end.

Module MiniSwe.
Definition mlog (e : ev) : Py.M MState unit :=
  Py.modify (fun st => {| sessions := sessions st; log := app (log st) [e] |}).

Definition get_session (sid : string) : Py.M MState (option Session) :=
  fun st => (Ok (sessions st !! sid), st).

(** [self._sessions[sid]]. *)
Definition session (sid : string) : Py.M MState Session :=
  fun st => match sessions st !! sid with
            | Some s => (Ok s, st)
            | None => (Raise (OtherException "KeyError"), st)
            end.

Definition put_session (sid : string) (s : Session) : Py.M MState unit :=
  Py.modify (fun st => {| sessions := <[sid := s]> (sessions st); log := log st |}).

Definition set_agent (sid : string) (a : AgentSt) : Py.M MState unit :=
  let! s := session sid in
  put_session sid {| cwd := cwd s; agent := Some a; task := task s; config := config s |}.

Definition set_task (sid : string) (t : option string) : Py.M MState unit :=
  let! s := session sid in
  put_session sid {| cwd := cwd s; agent := agent s; task := t; config := config s |}.

(** [agent.add_message(role, content)] of [_StreamingMiniAgent]: record
    the message, and stream an assistant message when updates are on. *)
Definition add_message (sid role content : string) : Py.M MState unit :=
  let! s := session sid in
  mlog (Message role content) ;;;
  match agent s with
  | Some a =>
      if emit_updates a && String.eqb role "assistant"
      then mlog (Scheduled (AgentMessageChunk (TextContentBlock content)))
      else Py.ret tt
  | None => Py.ret tt
  end.

(** [await self._client.sessionUpdate(...)] with an agent message chunk. *)
Definition send (o : PromptOracles) (sid text : string) : Py.M MState unit :=
  match o_send o with
  | Ok _ => mlog (Sent (chunk sid text))
  | Raise e => Py.raise e
  end.

Definition finished_text : string :=
  "Agent finished. Type a new task in the next message to " ++
  " continue, or do nothing to end.".

(** The [except] clauses of [prompt], in source order. *)
Definition prompt_handler (o : PromptOracles) (sid : string) (e : exc)
  : option (Py.M MState (option PromptResponse)) :=
  match e with
  | NonTerminatingException m => Some (add_message sid "user" m ;;; Py.ret None)
  | Submitted m =>
      Some (add_message sid "user" m ;;;
            let! s := session sid in
            if confirm_exit (config s)
            then send o sid finished_text ;;; set_task sid None ;;; Py.ret None
            else Py.ret None)
  | LimitsExceeded m => Some (add_message sid "user" ("Limits exceeded: " ++ m) ;;; Py.ret None)
  | _ =>
      if is_Exception e
      then Some (send o sid ("Error while processing: " ++ exc_str e) ;;; Py.ret None)
      else None
  end.

(** The [try] body of [prompt]; [Some r] is a [return r] from inside it. *)
Definition prompt_step (o : PromptOracles) (params : PromptRequest)
  : Py.M MState (option PromptResponse) :=
  let sid := preq_session_id params in
  let! s := session sid in
  let! response :=
    (if String.eqb (mode (config s)) "human" then
       match extract_code (o_findall_bash o) (preq_prompt params) with
       | Some cmd =>
           if py_truthy_str cmd then
             let msg := String "010" ("```bash" ++ String "010" (cmd ++ String "010" "```")) in
             add_message sid "assistant" msg ;;; Py.ret (Some msg)
           else send o sid "Human mode: please submit a bash command." ;;; Py.ret None
       | None => send o sid "Human mode: please submit a bash command." ;;; Py.ret None
       end
     else
       mlog QueryCalled ;;;
       let! c := Py.of_outcome (o_query o) in
       add_message sid "assistant" c ;;;     (* done by mini-swe-agent's [query] *)
       mlog (Scheduled (AgentThoughtChunk (TextContentBlock (o_cost_text o)))) ;;;
       Py.ret (Some c)) in
  match response with
  | None => Py.ret (Some {| stop_reason := end_turn |})
  | Some _ =>
      mlog ObservationCalled ;;;
      Py.of_outcome (o_observation o) ;;;
      Py.ret None
  end.

(** [MiniSweACPAgent.prompt]. *)
Definition prompt (o : PromptOracles) (params : PromptRequest) : Py.M MState PromptResponse :=
  let sid := preq_session_id params in
  let! found := get_session sid in
  (match found with
   | Some _ => Py.ret tt
   | None => put_session sid {| cwd := o_process_cwd o; agent := None; task := None;
                                config := default_config |}
   end) ;;;
  let! s := session sid in
  let! err :=
    (match agent s with
     | Some _ => Py.ret None
     | None =>
         match o_create o with
         | Ok _ => Py.ret None
         | Raise e =>
             if is_Exception e
             then Py.ret (Some ("Failed to load mini-swe-agent: " ++ exc_str e))
             else Py.raise e
         end
     end) in
  match err with
  | Some msg =>
      send o sid ("mini-swe-agent load error: " ++ msg) ;;;
      Py.ret {| stop_reason := end_turn |}
  | None =>
      (match agent s with
       | Some _ => Py.ret tt
       | None => set_agent sid {| emit_updates := false |}
       end) ;;;
      let! s := session sid in
      (if negb (match task s with Some t => py_truthy_str t | None => false end) then
         let t := build_task (preq_prompt params) in
         set_task sid (Some t) ;;;
         set_agent sid {| emit_updates := false |} ;;;
         let! sys := Py.of_outcome (o_render_system o) in
         add_message sid "system" sys ;;;
         let! inst := Py.of_outcome (o_render_instance o) in
         add_message sid "user" inst ;;;
         set_agent sid {| emit_updates := true |}
       else Py.ret tt) ;;;
      let! early := Py.try_except (prompt_step o params) (prompt_handler o sid) in
      match early with
      | Some r => Py.ret r
      | None => Py.ret {| stop_reason := end_turn |}
      end
  end.
End MiniSwe.



(** Oracles of a run of [prompt]: construction and templates succeed, the
    model replies or raises [query], the observation succeeds, and every
    [sessionUpdate] gives [send]. *)
Definition sample_oracles (query : outcome string) (send : outcome unit) : PromptOracles :=
  {| o_process_cwd := "/repo";
     o_create := Ok tt;
     o_render_system := Ok "sys";
     o_render_instance := Ok "inst";
     o_query := query;
     o_cost_text := "__COST__:0.00";
     o_observation := Ok tt;
     o_send := send;
     o_findall_bash := fun _ => [] |}.

(* ------------------------------------------------------------------ *)
(** ** [examples/mini_swe_agent/agent.py]: more of [MiniSweACPAgent] *)

Definition nl : string := String "010" "".

(** [s[n:]]. *)
Fixpoint str_drop (n : nat) (s : string) : string :=
  match n, s with
  | O, _ => s
  | S _, EmptyString => EmptyString
  | S k, String _ rest => str_drop k rest
  end.

(** [MiniSweACPAgent.newSession]: [uuid12] is [uuid.uuid4().hex[:12]] and
    [params_cwd] is [params.cwd]; the new id is stored whether or not it
    is already a key. *)
Definition miniswe_newSession (json_loads_list : string -> outcome (list string))
  (env : Env) (uuid12 params_cwd : string) (tbl : gmap string Session)
  : string * gmap string Session :=
  let session_id := "sess-" ++ uuid12 in
  (session_id,
   <[session_id := {| cwd := params_cwd; agent := None; task := None;
                      config := config_from_env json_loads_list env |}]> tbl).

Definition valid_modes : list string := ["confirm"; "yolo"; "human"].

(** [MiniSweACPAgent.setSessionMode]: the session table afterwards (the
    response is always [SetSessionModeResponse()]).  A stored session is
    a non-empty dict, so [not sess] holds only when the id is unknown. *)
Definition setSessionMode (session_id mode_id : string) (tbl : gmap string Session)
  : gmap string Session :=
  match tbl !! session_id with
  | None => tbl
  | Some sess =>
      let m := py_lower mode_id in
      if existsb (String.eqb m) valid_modes
      then <[session_id := {| cwd := cwd sess; agent := agent sess; task := task sess;
                              config := {| mode := m;
                                           whitelist_actions := whitelist_actions (config sess);
                                           confirm_exit := confirm_exit (config sess) |} |}]> tbl
      else tbl
  end.

(** [[a-zA-Z]]. *)
Definition is_ascii_letter (c : ascii) : bool :=
  let n := nat_of_ascii c in
  (Nat.leb 65 n && Nat.leb n 90) || (Nat.leb 97 n && Nat.leb n 122).

(** The longest prefix of letters, and what follows it. *)
Fixpoint letters_span (s : string) : string * string :=
  match s with
  | EmptyString => ("", "")
  | String c rest =>
      if is_ascii_letter c then let (a, b) := letters_span rest in (String c a, b)
      else ("", s)
  end.

(** The regex [\[\[MODE:([a-zA-Z]+)\]\]] anchored at the start of [s]:
    group 1 if it matches.  Backtracking [+] to a shorter run cannot help,
    since the character after a shorter run is a letter, not [\]]. *)
Definition mode_match_at (s : string) : option string :=
  if String.prefix "[[MODE:" s then
    let (g, after) := letters_span (str_drop 7 s) in
    if py_truthy_str g && String.prefix "]]" after then Some g else None
  else None.

(** [re.search(r"\[\[MODE:([a-zA-Z]+)\]\]", t)]: group 1 of the leftmost
    match. *)
Fixpoint mode_search (s : string) : option string :=
  match s with
  | EmptyString => None
  | String _ rest =>
      match mode_match_at s with Some g => Some g | None => mode_search rest end
  end.

(** [_extract_mode_from_blocks]. *)
Fixpoint extract_mode (blocks : list PromptBlock) : option string :=
  match blocks with
  | [] => None
  | b :: rest =>
      match text_of_block b with
      | Some t =>
          match mode_search t with
          | Some g =>
              let m := py_lower g in
              if existsb (String.eqb m) valid_modes then Some m else extract_mode rest
          | None => extract_mode rest
          end
      | None => extract_mode rest
      end
  end.

(** The lazy [(.*?)\n```] with [re.DOTALL]: the text before the first
    ["\n```"] of [s], and what follows that delimiter. *)
Fixpoint bash_close (s : string) : option (string * string) :=
  if String.prefix (nl ++ "```") s then Some ("", str_drop 4 s)
  else match s with
       | EmptyString => None
       | String c rest =>
           match bash_close rest with
           | Some (a, b) => Some (String c a, b)
           | None => None
           end
       end.

(** The leftmost match of [```bash\n(.*?)\n```] in [s]: group 1 and the
    text after the match. *)
Fixpoint bash_match (s : string) : option (string * string) :=
  match s with
  | EmptyString => None
  | String _ rest =>
      match (if String.prefix ("```bash" ++ nl) s then bash_close (str_drop 8 s) else None) with
      | Some r => Some r
      | None => bash_match rest
      end
  end.

(** [re.findall(r"```bash\n(.*?)\n```", t, re.DOTALL)]: the groups of the
    successive non-overlapping matches.  Every match is at least twelve
    characters long, so [length t + 1] rounds are enough. *)
Fixpoint findall_bash_go (fuel : nat) (s : string) : list string :=
  match fuel with
  | O => []
  | S f => match bash_match s with
           | Some (g, rest) => g :: findall_bash_go f rest
           | None => []
           end
  end.

Definition findall_bash (t : string) : list string := findall_bash_go (S (String.length t)) t.

(** The assistant message that [prompt] fabricates in human mode. *)
Definition human_message (cmd : string) : string :=
  nl ++ "```bash" ++ nl ++ cmd ++ nl ++ "```".

(* ------------------------------------------------------------------ *)
(** ** [examples/client.py] *)





(* ------------------------------------------------------------------ *)
(** ** [scripts/gen_schema.py]: [_rename_numbered_classes] *)

Fixpoint replace_go (old new : string) (skip : nat) (s : string) : string :=
  match s with
  | EmptyString => EmptyString
  | String c rest =>
      match skip with
      | S k => replace_go old new k rest
      | O => if String.prefix old s
             then new ++ replace_go old new (String.length old - 1) rest
             else String c (replace_go old new 0 rest)
      end
  end.

Fixpoint interleave (new s : string) : string :=
  match s with
  | EmptyString => new
  | String c rest => new ++ String c (interleave new rest)
  end.

(** [s.replace(old, new)]: every non-overlapping occurrence, from left to
    right; an empty [old] inserts [new] around every character. *)
Definition py_replace (old new s : string) : string :=
  if String.eqb old "" then interleave new s else replace_go old new 0 s.

(** The [content.replace] calls of the loop body, in source order. *)
Definition rename_patterns (old new : string) : list (string * string) :=
  [ ("class " ++ old ++ "(", "class " ++ new ++ "(");
    (old ++ " |", new ++ " |");
    ("| " ++ old, "| " ++ new);
    (": " ++ old, ": " ++ new);
    ("[" ++ old ++ "]", "[" ++ new ++ "]");
    ("List[" ++ old ++ "]", "List[" ++ new ++ "]");
    ("Optional[" ++ old ++ "]", "Optional[" ++ new ++ "]");
    ("Union[" ++ old, "Union[" ++ new);
    (", " ++ old ++ "]", ", " ++ new ++ "]");
    ("(" ++ old ++ ",", "(" ++ new ++ ",");
    ("(" ++ old ++ ")", "(" ++ new ++ ")");
    (nl ++ "        " ++ old, nl ++ "        " ++ new);
    (nl ++ "            " ++ old, nl ++ "            " ++ new);
    (" " ++ old ++ "(", " " ++ new ++ "(");
    ("=" ++ old ++ "(", "=" ++ new ++ "(");
    ("return " ++ old ++ "(", "return " ++ new ++ "(");
    ("[" ++ old ++ "])", "[" ++ new ++ "])");
    ("root: Annotated[" ++ nl ++ "        " ++ old ++ ",",
     "root: Annotated[" ++ nl ++ "        " ++ new ++ ",");
    ("Annotated[" ++ nl ++ "        " ++ old, "Annotated[" ++ nl ++ "        " ++ new) ].

Definition rename_entry (content : string) (kv : string * string) : string :=
  fold_left (fun c p => py_replace (fst p) (snd p) c) (rename_patterns (fst kv) (snd kv)) content.

(** [sorted(items, key=lambda x: len(x[0]), reverse=True)]: stable, longer
    names first, equal lengths in map order. *)
Fixpoint insert_by_len (kv : string * string) (l : list (string * string)) : list (string * string) :=
  match l with
  | [] => [kv]
  | y :: r => if Nat.ltb (String.length (fst y)) (String.length (fst kv)) then kv :: y :: r
              else y :: insert_by_len kv r
  end.

Definition sort_by_len_desc (l : list (string * string)) : list (string * string) :=
  fold_left (fun acc kv => insert_by_len kv acc) l [].

(** [_rename_numbered_classes] on the file's content. *)
Definition rename_numbered_classes (content : string) : string :=
  fold_left rename_entry (sort_by_len_desc GenSchema.rename_map) content.



(** The order of [sorted(..., key=lambda x: len(x[0]), reverse=True)]. *)
Definition len_ge (x y : string * string) : Prop := String.length (fst y) <= String.length (fst x).

(** The entries whose old name has length [n]. *)
Definition len_is (n : nat) (kv : string * string) : bool := Nat.eqb (String.length (fst kv)) n.

(** Sample sessions and oracles for runs of [prompt]. *)
Definition human_session : Session :=
  {| cwd := "/repo"; agent := Some {| emit_updates := true |}; task := Some "fix the bug";
     config := {| mode := "human"; whitelist_actions := []; confirm_exit := true |} |}.

Definition bash_oracles : PromptOracles :=
  {| o_process_cwd := "/repo"; o_create := Ok tt; o_render_system := Ok "sys";
     o_render_instance := Ok "inst"; o_query := Ok "unused"; o_cost_text := "__COST__:0.00";
     o_observation := Ok tt; o_send := Ok tt; o_findall_bash := findall_bash |}.

(** The session [prompt] registers for an unknown id. *)
Definition fresh_session (o : PromptOracles) : Session :=
  {| cwd := o_process_cwd o; agent := None; task := None; config := default_config |}.

Definition submit_oracles : PromptOracles :=
  {| o_process_cwd := "/repo"; o_create := Ok tt; o_render_system := Ok "sys";
     o_render_instance := Ok "inst"; o_query := Ok "reply"; o_cost_text := "__COST__:0.00";
     o_observation := Raise (Submitted "done"); o_send := Ok tt; o_findall_bash := fun _ => [] |}.

Definition confirm_session : Session :=
  {| cwd := "/repo"; agent := Some {| emit_updates := true |}; task := Some "fix the bug";
     config := default_config |}.

(* ================================================================== *)
(** * Properties *)

(** ** Decimal rendering *)

Lemma string_to_uint_to_string (d : Decimal.uint) :
  string_to_uint (uint_to_string d) = Some d.
Proof. induction d; simpl; rewrite ?IHd; reflexivity. Qed.

Lemma py_str_nat_inj (a b : nat) : py_str_nat a = py_str_nat b -> a = b.
Proof.
  intros H. apply (f_equal string_to_uint) in H. unfold py_str_nat in H.
  rewrite !string_to_uint_to_string in H. injection H as H.
  rewrite <- (DecimalNat.Unsigned.of_to a), <- (DecimalNat.Unsigned.of_to b), H.
  reflexivity.
Qed.

Lemma sess_prefix_inj (a b : string) : "sess-" ++ a = "sess-" ++ b -> a = b.
Proof. simpl. intros H. injection H as H. exact H. Qed.

Lemma NoDup_map_injective {A B} (f : A -> B) (l : list A) :
  (forall x y, f x = f y -> x = y) -> NoDup l -> NoDup (map f l).
Proof.
  intros Hinj Hl. induction Hl as [|x l Hx Hl IH]; simpl; constructor; auto.
  intros Hin. rewrite list_elem_of_In in Hin. apply in_map_iff in Hin as (y & Hy & Hin).
  apply Hinj in Hy. subst. apply Hx. rewrite list_elem_of_In. exact Hin.
Qed.

Lemma newSessions_ids (n k : nat) :
  fst (newSessions {| ExampleAgent.next_session_id := k |} n)
  = map (fun i => "sess-" ++ py_str_nat i) (seq k n).
Proof.
  revert k. induction n as [|n IH]; intros k; [reflexivity|].
  simpl. specialize (IH (S k)).
  destruct (newSessions {| ExampleAgent.next_session_id := S k |} n) as [rest self''] eqn:E.
  simpl in *. rewrite IH. reflexivity.
Qed.

Lemma last_event_app (l : list ev) (e : ev) : last_event (app l [e]) = Some e.
Proof.
  induction l as [|x l IH]; [reflexivity|].
  simpl. destruct (app l [e]) eqn:E; [destruct l; discriminate|exact IH].
Qed.

Lemma hd_error_app_some {A} (l m : list A) (x : A) :
  hd_error l = Some x -> hd_error (app l m) = Some x.
Proof. destruct l; [discriminate|exact id]. Qed.

(** ** Example agents *)

Lemma emit_then {E A} (e : E) (m : Py.M (list E) A) (acc : list E) :
  (Py.emit e ;;; m) acc = m (app acc [e]).
Proof. reflexivity. Qed.

(** C1 (counterexample): on the S2 request (one text block "hi") neither
    example agent emits three notifications: [ExampleAgent] emits two and
    [EchoAgent] one. *)
Lemma C1_three_chunks_counterexample :
  length (snd (ExampleAgent.prompt (fun _ => "") S2_request [])) <> 3 /\
  length (snd (EchoAgent.prompt S2_request [])) <> 3.
Proof. vm_compute. split; discriminate. Qed.

(** C1 (amended): on the S2 request [ExampleAgent.prompt] sends exactly two
    [agent_message_chunk] notifications, "Client sent: " and then "hi", and
    returns [end_turn]; in general it sends one chunk more than the prompt
    has blocks, all of them agent message chunks; [EchoAgent.prompt] sends
    the single chunk "hi". *)
Theorem C1_example_prompt_two_chunks :
  (forall str_other : json -> string,
     ExampleAgent.prompt str_other S2_request []
     = (Ok {| stop_reason := end_turn |}, [chunk "sess-0" "Client sent: "; chunk "sess-0" "hi"])) /\
  (forall (str_other : json -> string) (req : PromptRequest),
     exists notes,
       ExampleAgent.prompt str_other req [] = (Ok {| stop_reason := end_turn |}, notes) /\
       length notes = S (length (preq_prompt req)) /\
       forallb is_agent_message_chunk notes = true) /\
  EchoAgent.prompt S2_request [] = (Ok {| stop_reason := end_turn |}, [chunk "sess-0" "hi"]).
Proof.
  split; [intros; reflexivity|]. split; [|reflexivity].
  intros str_other [sid blocks]. unfold ExampleAgent.prompt, ExampleAgent.sessionUpdate; simpl.
  assert (Hgen : forall acc : list SessionNotification,
    exists notes,
      fold_right
        (fun b rest =>
           Py.emit
             {| sn_session_id := sid;
                sn_update := AgentMessageChunk (TextContentBlock (ExampleAgent.block_text str_other b)) |} ;;;
           rest) (Py.ret {| stop_reason := end_turn |}) blocks acc
      = (Ok {| stop_reason := end_turn |}, app acc notes) /\
      length notes = length blocks /\ forallb is_agent_message_chunk notes = true).
  { induction blocks as [|b bs IH]; intros acc.
    - exists []. rewrite app_nil_r. auto.
    - cbn [fold_right]. rewrite emit_then.
      destruct (IH (app acc [{| sn_session_id := sid;
               sn_update := AgentMessageChunk (TextContentBlock (ExampleAgent.block_text str_other b)) |}]))
        as (notes & Hrun & Hlen & Hall).
      eexists. split; [rewrite Hrun, <- app_assoc; reflexivity|].
      simpl. rewrite Hlen, Hall. auto. }
  rewrite emit_then.
  destruct (Hgen [chunk sid "Client sent: "]) as (notes & Hrun & Hlen & Hall).
  exists (chunk sid "Client sent: " :: notes).
  unfold chunk in Hrun. simpl app in Hrun |- *. rewrite Hrun. simpl. rewrite Hlen, Hall. auto.
Qed.

(** C3: for every request, [ExampleAgent.initialize] answers
    [protocol_version=1], no agent capabilities and no auth methods. *)
Theorem C3_example_initialize (req : InitializeRequest) :
  ExampleAgent.initialize req
  = {| protocol_version := 1; agent_capabilities := None; auth_methods := [] |}.
Proof. reflexivity. Qed.

(** C4 (counterexample): [ExampleAgent.initialize] does not echo the
    request's version: a request carrying [PROTOCOL_VERSION + 1] is answered
    with [PROTOCOL_VERSION]. *)
Lemma C4_echo_counterexample :
  ~ (forall req : InitializeRequest,
       protocol_version (ExampleAgent.initialize req) = ireq_protocol_version req).
Proof.
  intros H. specialize (H {| ireq_protocol_version := PROTOCOL_VERSION + 1 |}).
  simpl in H. lia.
Qed.

(** C4 (amended): [EchoAgent.initialize] echoes the request's version;
    [ExampleAgent] and [MiniSweACPAgent] answer the constant
    [PROTOCOL_VERSION] whatever the request carries, so they echo it exactly
    when the request carries [PROTOCOL_VERSION]. *)
Theorem C4_initialize_versions :
  (forall req, EchoAgent.initialize req = ireq_protocol_version req) /\
  (forall req, protocol_version (ExampleAgent.initialize req) = PROTOCOL_VERSION) /\
  (forall req, protocol_version (miniswe_initialize req) = PROTOCOL_VERSION) /\
  (forall req, protocol_version (ExampleAgent.initialize req) = ireq_protocol_version req
               <-> ireq_protocol_version req = PROTOCOL_VERSION).
Proof. repeat split; intros; simpl in *; congruence. Qed.

(** C8: the [n] successive [newSession] calls on a fresh [ExampleAgent]
    return ["sess-0"], ["sess-1"], ..., ["sess-(n-1)"] in call order, and no
    two of them are equal. *)
Theorem C8_newSession_ids (n : nat) :
  fst (newSessions ExampleAgent.init n) = map (fun i => "sess-" ++ py_str_nat i) (seq 0 n) /\
  NoDup (fst (newSessions ExampleAgent.init n)).
Proof.
  pose proof (newSessions_ids n 0) as H. unfold ExampleAgent.init. rewrite H.
  split; [reflexivity|].
  apply NoDup_map_injective; [|apply NoDup_seq].
  intros x y Hxy. apply sess_prefix_inj, py_str_nat_inj in Hxy. exact Hxy.
Qed.

(** ** Schema generator *)



(** C6: the rename map's [SessionUpdate] entries are exactly
    [SessionUpdate1..8], renamed in order to the user message chunk, agent
    message chunk, agent thought chunk, tool call start, tool call progress,
    plan, available commands update and current mode update classes; its
    [ContentBlock] entries are exactly [ContentBlock1..5], renamed in order
    to the text, image, audio, resource and embedded resource classes. *)
Theorem C6_rename_map_variants :
  GenSchema.entries_with_prefix "SessionUpdate"
  = [ ("SessionUpdate1", "UserMessageChunk");
      ("SessionUpdate2", "AgentMessageChunk");
      ("SessionUpdate3", "AgentThoughtChunk");
      ("SessionUpdate4", "ToolCallStart");
      ("SessionUpdate5", "ToolCallProgress");
      ("SessionUpdate6", "AgentPlan");
      ("SessionUpdate7", "AvailableCommandsUpdate");
      ("SessionUpdate8", "CurrentModeUpdate") ] /\
  GenSchema.entries_with_prefix "ContentBlock"
  = [ ("ContentBlock1", "TextContentBlock");
      ("ContentBlock2", "ImageContentBlock");
      ("ContentBlock3", "AudioContentBlock");
      ("ContentBlock4", "ResourceContentBlock");
      ("ContentBlock5", "EmbeddedResourceContentBlock") ].
Proof. split; vm_compute; reflexivity. Qed.

(** ** Mini-SWE agent: [loadSession] *)

(** C10: when the session id [loadSession] reads is already a key of the
    session table, the table is left unchanged. *)
Theorem C10_loadSession_existing (json_loads_list : string -> outcome (list string))
  (env : Env) (process_cwd : string) (params : LoadParams) (tbl : gmap string Session)
  (Hknown : is_Some (tbl !! fst (load_session_key process_cwd params))) :
  loadSession json_loads_list env process_cwd params tbl = tbl.
Proof.
  unfold loadSession.
  destruct (load_session_key process_cwd params) as [sid c]. simpl in Hknown.
  destruct Hknown as [s Hs]. rewrite Hs. reflexivity.
Qed.

Definition sample_session : Session :=
  {| cwd := "/repo"; agent := None; task := Some "fix the bug"; config := default_config |}.

Lemma C10_loadSession_existing_witness :
  loadSession (fun _ => Ok []) {| MINI_SWE_WHITELIST := None; MINI_SWE_CONFIRM_EXIT := Some "no" |}
    "/tmp" {| lp_session_id := Some "sess-1"; lp_cwd := Some "/other"; lp_sessionId := None |}
    (<["sess-1" := sample_session]> ∅)
  = <["sess-1" := sample_session]> ∅.
Proof.
  apply C10_loadSession_existing. simpl. rewrite lookup_insert_eq. eexists. reflexivity.
Defined.


(** ** Mini-SWE agent: [execute_action] *)

Ltac run_prefix :=
  repeat progress (
    unfold Py.bind, Py.ret, Py.raise, Py.emit, Py.modify, Py.of_outcome,
      on_tool_start, on_tool_complete, confirm_action_sync;
    cbv beta iota zeta delta [fst snd is_Exception];
    cbn [tool_call_status String.eqb Ascii.eqb Bool.eqb]);
  cbn [In app].

Ltac run_exec :=
  unfold Py.try_except, execute_try, execute_except; run_prefix.

(** Case split on the status the [NonTerminatingException] handler picks. *)
Ltac split_cancel :=
  repeat match goal with
         | |- context [is_cancel_msg ?m] => destruct (is_cancel_msg m); run_prefix
         end.

(** C2 (code bug): for a non-blank command ([command.strip()] non-empty)
    that no whitelist pattern matches (the matching itself raising
    nothing), [execute_action] calls the underlying execution exactly when
    the permission response is an [AllowedOutcome] with option id
    ["allow-once"] or ["allow-always"].  Otherwise, when the response is a
    denial, another option id, or an [Exception] while obtaining it, the
    command is not run and [NonTerminatingException("Command not executed:
    denied by user")] is raised, but the ["cancelled"] update it schedules
    fails the schema's validation: the client has seen the tool call start
    and nothing after it.  A blank command is run with no permission
    request. *)
Theorem C2_denied_tool_call_left_open :
  (forall (re_match : string -> string -> outcome bool) (wl : list string) (tool_seq : nat)
          (uuid8 command : string) (resp : outcome PermissionOutcome) (base : outcome ExecResult),
     py_truthy_str (py_strip command) = true ->
     any_match re_match wl command = Ok false ->
     let tool_id := tool_id_of tool_seq uuid8 in
     let res := execute_action re_match wl tool_seq uuid8 command resp base [] in
     (In (BaseExecute command) (snd res) <-> permission_allows resp = true) /\
     (permission_allows resp = false ->
      (forall e, resp = Raise e -> is_Exception e = true) ->
      res = (Raise (NonTerminatingException denied_msg),
             [Scheduled (ToolCallStart tool_id "bash" pending); PermissionRequested tool_id command]))) /\
  (forall (re_match : string -> string -> outcome bool) (wl : list string) (tool_seq : nat)
          (uuid8 command : string) (resp : outcome PermissionOutcome) (base : outcome ExecResult),
     py_truthy_str (py_strip command) = false ->
     let res := execute_action re_match wl tool_seq uuid8 command resp base [] in
     In (BaseExecute command) (snd res) /\
     (forall tid c, ~ In (PermissionRequested tid c) (snd res))).
Proof.
  split.
  - intros re_match wl tool_seq uuid8 command resp base Hblank Hmatch tool_id res.
    subst res tool_id.
    unfold execute_action. rewrite Hblank. unfold Py.of_outcome at 1. rewrite Hmatch.
    destruct resp as [[|oid]|e]; unfold permission_allows.
    + run_exec. split; [split; [intuition congruence|discriminate]|].
      intros _ _. reflexivity.
    + destruct (String.eqb oid "allow-once" || String.eqb oid "allow-always") eqn:Hoid.
      * run_exec. rewrite Hoid. run_exec. split; [|discriminate].
        split; [reflexivity|intros _].
        destruct base as [r|e]; run_exec; [tauto|].
        destruct e; run_exec; try tauto.
        destruct (is_cancel_msg msg); run_exec; tauto.
      * run_exec. rewrite Hoid. run_exec.
        split; [split; [intuition congruence|discriminate]|].
        intros _ _. reflexivity.
    + destruct e; run_exec;
        (split; [split; [intuition congruence|discriminate]|]);
        intros _ Hexc;
        reflexivity || (specialize (Hexc _ eq_refl); discriminate).
  - intros re_match wl tool_seq uuid8 command resp base Hblank res. subst res.
    unfold execute_action. rewrite Hblank.
    destruct base as [r|e]; run_exec.
    + split; [tauto|]. intros tid c. intuition congruence.
    + destruct e; run_exec; try (split; try tauto; intros tid c; intuition congruence).
      destruct (is_cancel_msg msg); run_exec; split; try tauto; intros tid c; intuition congruence.
Qed.

Lemma C2_denied_tool_call_left_open_witness :
  execute_action re_match_plain [] 0 "abcd1234" "ls" (Ok DeniedOutcome)
    (Ok {| output := ""; returncode := 0 |}) []
  = (Raise (NonTerminatingException denied_msg),
     [Scheduled (ToolCallStart (tool_id_of 0 "abcd1234") "bash" pending);
      PermissionRequested (tool_id_of 0 "abcd1234") "ls"]).
Proof.
  exact (proj2 (proj1 C2_denied_tool_call_left_open re_match_plain [] 0 "abcd1234" "ls"
                  (Ok DeniedOutcome) (Ok {| output := ""; returncode := 0 |})
                  ltac:(reflexivity) ltac:(reflexivity))
           ltac:(reflexivity) ltac:(intros e H; discriminate H)).
Defined.

(** C7 (the code's behaviour at the failing input): with the whitelist
    pattern ["("], which [re.match] rejects, [execute_action] schedules the
    tool call start and then raises from the whitelist check, outside the
    [try] block: no final tool call update is scheduled. *)
Theorem C7_invalid_whitelist_pattern_leaves_tool_call_open :
  execute_action re_match_plain ["("] 0 "abcd1234" "ls" (Ok (AllowedOutcome "allow-once"))
    (Ok {| output := "x"; returncode := 0 |}) []
  = (Raise ReError, [Scheduled (ToolCallStart (tool_id_of 0 "abcd1234") "bash" pending)]).
Proof. vm_compute. reflexivity. Qed.

(** The [try] block of [execute_action]: the in-progress update and the
    execution, then a final update exactly when [closes_after_execute]
    holds. *)
Lemma execute_try_log (tool_id command : string) (base : outcome ExecResult) (acc : list ev) :
  exists tail,
    snd (Py.try_except (execute_try tool_id command base) (execute_except tool_id) acc)
    = app acc (Scheduled (ToolCallProgress tool_id in_progress) :: BaseExecute command :: tail) /\
    (closes_after_execute base = true ->
     exists st, tail = [Scheduled (ToolCallProgress tool_id st)] /\ is_final_status st = true) /\
    (closes_after_execute base = false -> tail = []).
Proof.
  destruct base as [r|e].
  - run_exec. eexists. split; [repeat rewrite <- app_assoc; reflexivity|].
    split; [intros _; eexists; split; reflexivity|discriminate].
  - destruct e; run_exec;
      try (eexists; split; [repeat rewrite <- app_assoc; reflexivity|];
           split; [intros _; eexists; split; reflexivity|discriminate]).
    + cbn [closes_after_execute]. destruct (is_cancel_msg msg) eqn:Hc; run_exec.
      * eexists. split; [repeat rewrite <- app_assoc; reflexivity|].
        split; [discriminate|intros _; reflexivity].
      * eexists. split; [repeat rewrite <- app_assoc; reflexivity|].
        split; [intros _; eexists; split; reflexivity|discriminate].
    + eexists. split; [repeat rewrite <- app_assoc; reflexivity|].
      split; [discriminate|intros _; reflexivity].
Qed.

Lemma last_event_cons2 (a b : ev) (l : list ev) :
  last_event (a :: b :: l) = last_event (b :: l).
Proof. reflexivity. Qed.

Lemma last_event_app_cons (l : list ev) (x : ev) (r : list ev) :
  last_event (app l (x :: r)) = last_event (x :: r).
Proof.
  induction l as [|y l IH]; [reflexivity|].
  cbn [app]. rewrite <- IH. destruct l; reflexivity.
Qed.

(** X6: whatever the whitelist, the permission response and the
    execution do, the first update [execute_action] schedules is the tool
    call start, and the last one is a progress update with a final status
    the schema accepts ([completed] or [failed]) exactly when the command
    was executed and its outcome is not a [NonTerminatingException] asking
    for ["cancelled"] nor an error outside [Exception].  A denied command,
    a cancelled one, a whitelist check that raises and a [KeyboardInterrupt]
    all leave the tool call open. *)
Theorem execute_action_closed_iff (re_match : string -> string -> outcome bool)
  (wl : list string) (tool_seq : nat) (uuid8 command : string)
  (resp : outcome PermissionOutcome) (base : outcome ExecResult) :
  let tool_id := tool_id_of tool_seq uuid8 in
  let log := snd (execute_action re_match wl tool_seq uuid8 command resp base []) in
  hd_error log = Some (Scheduled (ToolCallStart tool_id "bash" pending)) /\
  ((exists st, last_event log = Some (Scheduled (ToolCallProgress tool_id st)) /\
               is_final_status st = true) <->
   In (BaseExecute command) log /\ closes_after_execute base = true).
Proof.
  intros tool_id log. subst log.
  assert (Htry : forall acc x, hd_error acc = Some x -> ~ In (BaseExecute command) acc ->
    let log := snd (Py.try_except (execute_try tool_id command base) (execute_except tool_id) acc) in
    hd_error log = Some x /\
    ((exists st, last_event log = Some (Scheduled (ToolCallProgress tool_id st)) /\
                 is_final_status st = true) <->
     In (BaseExecute command) log /\ closes_after_execute base = true)).
  { intros acc x Hx Hacc log. subst log.
    destruct (execute_try_log tool_id command base acc) as (tail & -> & Hyes & Hno).
    split; [apply hd_error_app_some; exact Hx|].
    rewrite last_event_app_cons, last_event_cons2.
    destruct (closes_after_execute base).
    - destruct (Hyes eq_refl) as (st & -> & Hst).
      split; [intros _; split; [apply in_or_app; right; right; left; reflexivity|reflexivity]|].
      intros _. exists st. split; [reflexivity|exact Hst].
    - rewrite (Hno eq_refl). split; [intros (st & H & _); discriminate H|intros [_ H]; discriminate H]. }
  assert (Hopen : forall l, ~ In (BaseExecute command) l -> last_event l = None \/
            (exists y, last_event l = Some y /\ forall st, y <> Scheduled (ToolCallProgress tool_id st)) ->
    ((exists st, last_event l = Some (Scheduled (ToolCallProgress tool_id st)) /\
                 is_final_status st = true) <->
     In (BaseExecute command) l /\ closes_after_execute base = true)).
  { intros l Hl Hlast. split; [|intros [H _]; contradiction].
    intros (st & H & _). destruct Hlast as [H'|(y & H' & Hy)]; rewrite H' in H; [discriminate H|].
    injection H as H. exact (False_ind _ (Hy st H)). }
  unfold execute_action. fold tool_id.
  destruct (py_truthy_str (py_strip command)) eqn:Hblank.
  - unfold Py.of_outcome at 1.
    destruct (any_match re_match wl command) as [[|]|e] eqn:Hm.
    + run_prefix. apply Htry; [reflexivity|cbn [In]; intuition congruence].
    + destruct resp as [[|oid]|e].
      * run_prefix. split; [reflexivity|]. apply Hopen; [cbn [In]; intuition congruence|].
        right. eexists. split; [reflexivity|]. intros st; discriminate.
      * destruct (String.eqb oid "allow-once" || String.eqb oid "allow-always") eqn:Hoid.
        -- run_prefix. rewrite Hoid. run_prefix.
           apply Htry; [reflexivity|cbn [In]; intuition congruence].
        -- run_prefix. rewrite Hoid. run_prefix. split; [reflexivity|].
           apply Hopen; [cbn [In]; intuition congruence|].
           right. eexists. split; [reflexivity|]. intros st; discriminate.
      * destruct e; run_prefix; split; try reflexivity;
          (apply Hopen; [cbn [In]; intuition congruence|];
           right; eexists; split; [reflexivity|]; intros st; discriminate).
    + run_prefix. split; [reflexivity|]. apply Hopen; [cbn [In]; intuition congruence|].
      right. eexists. split; [reflexivity|]. intros st; discriminate.
  - run_prefix. apply Htry; [reflexivity|cbn [In]; intuition congruence].
Qed.

(** ** Mini-SWE agent: [prompt] *)

Ltac rw_known :=
  repeat first
    [ rewrite lookup_insert_eq
    | match goal with H : _ !! _ = Some _ |- _ => rewrite H end
    | match goal with H : _ !! _ = None |- _ => rewrite H end
    | match goal with H : String.eqb _ _ = _ |- _ => rewrite H end
    | match goal with H : extract_code _ _ = _ |- _ => rewrite H end
    | match goal with H : py_truthy_str _ = _ |- _ => rewrite H end
    | match goal with H : is_Exception _ = _ |- _ => rewrite H end ].

Ltac mrun :=
  repeat progress (
    unfold Py.bind, Py.ret, Py.raise, Py.modify, Py.of_outcome,
      MiniSwe.get_session, MiniSwe.session, MiniSwe.put_session, MiniSwe.set_agent,
      MiniSwe.set_task, MiniSwe.add_message, MiniSwe.send, MiniSwe.mlog;
    cbv beta iota zeta delta [sessions log cwd agent task config mode whitelist_actions
      confirm_exit emit_updates o_process_cwd o_create o_render_system o_render_instance
      o_query o_cost_text o_observation o_send o_findall_bash fst snd andb orb negb];
    rw_known;
    cbn [String.eqb Ascii.eqb Bool.eqb is_Exception]).









(* ================================================================== *)
(** * Further properties of the embedded code *)


(** ** String lemmas *)

Lemma prefix_spec (p s : string) : String.prefix p s = true <-> exists r, s = p ++ r.
Proof.
  revert s; induction p as [|c p IH]; intros s.
  - split; [intros _; exists s; reflexivity|intros _; destruct s; reflexivity].
  - destruct s as [|c' s]; simpl.
    + split; [discriminate|intros [r Hr]; discriminate].
    + destruct (ascii_dec c c') as [<-|Hne].
      * rewrite IH. split; intros [r Hr]; exists r; [subst; reflexivity|injection Hr as Hr; exact Hr].
      * split; [discriminate|intros [r Hr]; injection Hr as Hr _; congruence].
Qed.

Lemma contains_spec (p s : string) : py_contains p s = true <-> exists a b, s = a ++ p ++ b.
Proof.
  induction s as [|c s IH]; cbn [py_contains].
  - rewrite orb_false_r, prefix_spec. split.
    + intros [r Hr]. exists "", r. exact Hr.
    + intros [a [b H]]. destruct a; [exists b; exact H|discriminate].
  - rewrite orb_true_iff, prefix_spec, IH. split.
    + intros [[r Hr]|[a [b Hab]]].
      * exists "", r. exact Hr.
      * exists (String c a), b. rewrite Hab. reflexivity.
    + intros [a [b H]]. destruct a as [|c' a].
      * left. exists b. exact H.
      * right. injection H as -> H. exists a, b. exact H.
Qed.

Lemma append_assoc_s (a b c : string) : (a ++ b) ++ c = a ++ b ++ c.
Proof. induction a as [|x a IH]; [reflexivity|]. change (String x ((a ++ b) ++ c) = String x (a ++ b ++ c)). rewrite IH. reflexivity. Qed.

Lemma app_cons_s (c : ascii) (a b : string) : String c a ++ b = String c (a ++ b).
Proof. reflexivity. Qed.

Lemma app_nil_s (b : string) : "" ++ b = b.
Proof. reflexivity. Qed.

Lemma str_drop_app (a b : string) : str_drop (String.length a) (a ++ b) = b.
Proof. induction a; [reflexivity|]. rewrite app_cons_s. simpl. exact IHa. Qed.

(** ** Mini-SWE agent: [_extract_mode_from_blocks] *)

Lemma letters_span_app (m r : string) :
  forallb is_ascii_letter (list_ascii_of_string m) = true ->
  match r with EmptyString => True | String c _ => is_ascii_letter c = false end ->
  letters_span (m ++ r) = (m, r).
Proof.
  intros Hm Hr. induction m as [|c m IH].
  - rewrite app_nil_s. destruct r as [|c r]; [reflexivity|]. simpl. rewrite Hr. reflexivity.
  - simpl in Hm. apply andb_true_iff in Hm as [Hc Hm]. rewrite app_cons_s. simpl.
    rewrite Hc, IH by exact Hm. reflexivity.
Qed.

Lemma mode_search_tag (m rest : string) :
  m <> "" -> forallb is_ascii_letter (list_ascii_of_string m) = true ->
  mode_search ("[[MODE:" ++ m ++ "]]" ++ rest) = Some m.
Proof.
  intros Hne Hm.
  change ("[[MODE:" ++ m ++ "]]" ++ rest) with (String "[" ("[MODE:" ++ m ++ "]]" ++ rest)).
  unfold mode_search; fold mode_search.
  unfold mode_match_at.
  rewrite (proj2 (prefix_spec _ _)) by (eexists; reflexivity).
  change (str_drop 7 (String "[" ("[MODE:" ++ m ++ "]]" ++ rest))) with (m ++ "]]" ++ rest).
  rewrite letters_span_app by (auto; reflexivity).
  rewrite (proj2 (prefix_spec "]]" ("]]" ++ rest))) by (eexists; reflexivity).
  destruct m; [congruence|]. reflexivity.
Qed.

Lemma letters_span_app_gen (y T : string) :
  match T with EmptyString => True | String c _ => is_ascii_letter c = false end ->
  letters_span (y ++ T) = let (g, af) := letters_span y in (g, af ++ T).
Proof.
  intros HT. induction y as [|c y IH].
  - rewrite app_nil_s. destruct T as [|c T]; [reflexivity|]. simpl. rewrite HT. reflexivity.
  - rewrite app_cons_s. simpl. destruct (is_ascii_letter c).
    + rewrite IH. destruct (letters_span y). reflexivity.
    + reflexivity.
Qed.

Lemma prefix_app_false (p x s : string) :
  String.prefix p (x ++ s) = true -> String.prefix p x = false ->
  exists p2, p = x ++ p2 /\ p2 <> "" /\ String.prefix p2 s = true.
Proof.
  revert p. induction x as [|c x IH]; intros p H1 H2.
  - exists p. split; [reflexivity|]. split; [|exact H1].
    intros ->. discriminate H2.
  - destruct p as [|c' p]; [discriminate H2|].
    rewrite app_cons_s in H1. simpl in H1, H2.
    destruct (ascii_dec c' c) as [<-|Hne]; [|discriminate H1].
    destruct (IH p H1 H2) as (p2 & -> & Hne & Hp). exists p2. auto.
Qed.

Lemma prefix_rbr_app (af T : string) :
  String.prefix "]]" (af ++ String "[" T) = String.prefix "]]" af.
Proof.
  destruct af as [|c [|c' af]]; [reflexivity| |].
  - rewrite app_cons_s, app_nil_s. cbn [String.prefix]. destruct (ascii_dec "]" c); reflexivity.
  - rewrite !app_cons_s. cbn [String.prefix]. destruct (ascii_dec "]" c); [|reflexivity].
    destruct (ascii_dec "]" c'); [destruct af; reflexivity|reflexivity].
Qed.

Lemma mode_match_at_before_bracket (x T' : string) :
  x <> "" -> mode_match_at x = None ->
  mode_match_at (x ++ String "[" (String "[" T')) = None.
Proof.
  intros Hx Hm. unfold mode_match_at in *.
  destruct (String.prefix "[[MODE:" x) eqn:Hp.
  - apply prefix_spec in Hp as [y ->].
    rewrite append_assoc_s.
    rewrite (proj2 (prefix_spec "[[MODE:" ("[[MODE:" ++ y ++ _))) by (eexists; reflexivity).
    change 7%nat with (String.length "[[MODE:") in *.
    rewrite !str_drop_app in *.
    rewrite letters_span_app_gen by reflexivity.
    destruct (letters_span y) as [g af].
    destruct (py_truthy_str g); [|reflexivity].
    rewrite prefix_rbr_app. exact Hm.
  - destruct (String.prefix "[[MODE:" (x ++ String "[" (String "[" T'))) eqn:H2; [|reflexivity].
    exfalso. destruct (prefix_app_false _ _ _ H2 Hp) as (p2 & Hx' & Hne & Hp2).
    destruct x as [|c1 x]; [congruence|].
    rewrite app_cons_s in Hx'. injection Hx' as <- Hx'.
    repeat (destruct x as [|? x];
            [rewrite app_nil_s in Hx'; subst p2; cbn in Hp2; discriminate Hp2
            |rewrite app_cons_s in Hx'; injection Hx' as <- Hx']).
    destruct x; [rewrite app_nil_s in Hx'; congruence|discriminate Hx'].
Qed.

Lemma mode_search_after (a m rest : string) :
  mode_search a = None -> m <> "" -> forallb is_ascii_letter (list_ascii_of_string m) = true ->
  mode_search (a ++ "[[MODE:" ++ m ++ "]]" ++ rest) = Some m.
Proof.
  intros Ha Hne Hm. induction a as [|c a IH].
  - rewrite app_nil_s. apply mode_search_tag; assumption.
  - cbn [mode_search] in Ha.
    destruct (mode_match_at (String c a)) eqn:Hc; [discriminate Ha|].
    rewrite app_cons_s. cbn [mode_search]. rewrite <- app_cons_s.
    change ("[[MODE:" ++ m ++ "]]" ++ rest) with (String "[" (String "[" ("MODE:" ++ m ++ "]]" ++ rest))).
    rewrite mode_match_at_before_bracket by (discriminate || exact Hc).
    apply IH. exact Ha.
Qed.

(** X1: the first text block that contains a tag [[[MODE:m]]] ([m] a
    non-empty run of ASCII letters) decides, when the text before the tag
    holds no complete tag: if [m], lower-cased, is ["confirm"], ["yolo"] or
    ["human"], that lower-cased mode is returned, whatever the letter case
    of [m]; otherwise the whole block is skipped, later tags of the same
    block included, and the search goes on with the next blocks.  Earlier
    text blocks without a tag and blocks that are not text are passed over. *)
Theorem extract_mode_first_tag (pre post : list PromptBlock) (b : PromptBlock) (a m rest : string) :
  Forall (fun b' => forall t, text_of_block b' = Some t -> mode_search t = None) pre ->
  text_of_block b = Some (a ++ "[[MODE:" ++ m ++ "]]" ++ rest) ->
  mode_search a = None -> m <> "" -> forallb is_ascii_letter (list_ascii_of_string m) = true ->
  extract_mode (pre ++ b :: post)
  = if existsb (String.eqb (py_lower m)) valid_modes then Some (py_lower m) else extract_mode post.
Proof.
  intros Hpre Hb Ha Hne Hm. induction Hpre as [|b' pre Hb' _ IH].
  - cbn [app extract_mode]. rewrite Hb, mode_search_after by assumption. reflexivity.
  - cbn [app extract_mode]. destruct (text_of_block b') as [t|] eqn:Ht; [|exact IH].
    rewrite (Hb' t eq_refl). exact IH.
Qed.

Lemma extract_mode_first_tag_witness :
  extract_mode ([ModelBlock (TextContentBlock "plain")] ++
                [ModelBlock (TextContentBlock ("see [x] " ++ "[[MODE:" ++ "Human" ++ "]]" ++ " [[MODE:yolo]]"))])
  = Some "human".
Proof.
  rewrite (extract_mode_first_tag [ModelBlock (TextContentBlock "plain")] []
             (ModelBlock (TextContentBlock ("see [x] " ++ "[[MODE:" ++ "Human" ++ "]]" ++ " [[MODE:yolo]]")))
             "see [x] " "Human" " [[MODE:yolo]]").
  - reflexivity.
  - constructor; [|constructor]. intros t Ht. injection Ht as <-. reflexivity.
  - reflexivity.
  - reflexivity.
  - discriminate.
  - reflexivity.
Defined.

(** X2: [_extract_mode_from_blocks] only ever returns
    ["confirm"], ["yolo"] or ["human"]. *)
Theorem extract_mode_valid (blocks : list PromptBlock) (m : string) :
  extract_mode blocks = Some m -> In m valid_modes.
Proof.
  induction blocks as [|b rest IH]; cbn [extract_mode]; [discriminate|].
  destruct (text_of_block b) as [t|]; [|exact IH].
  destruct (mode_search t) as [g|]; [|exact IH].
  destruct (existsb (String.eqb (py_lower g)) valid_modes) eqn:Hv; [|exact IH].
  intros H. injection H as <-.
  apply existsb_exists in Hv as [x [Hx Heq]]. apply String.eqb_eq in Heq. subst x. exact Hx.
Qed.

Lemma extract_mode_valid_witness :
  In "human" valid_modes.
Proof.
  apply (extract_mode_valid [ModelBlock (TextContentBlock "[[MODE:Human]]")] "human").
  vm_compute. reflexivity.
Defined.


(** ** Mini-SWE agent: [_extract_code_from_blocks] *)

Lemma no_straddle (c : ascii) (s r : string) :
  String.prefix (nl ++ "```") (String c s) = false ->
  String.prefix (nl ++ "```") (String c (s ++ nl ++ "```" ++ r)) = false.
Proof.
  change (nl ++ "```") with (String "010" "```").
  intros H. cbn [String.prefix] in *.
  destruct (ascii_dec "010" c) as [<-|]; [|reflexivity].
  destruct s as [|c1 s]; [reflexivity|]. rewrite app_cons_s. cbn [String.prefix] in *.
  destruct (ascii_dec "`" c1) as [<-|]; [|reflexivity].
  destruct s as [|c2 s]; [reflexivity|]. rewrite app_cons_s. cbn [String.prefix] in *.
  destruct (ascii_dec "`" c2) as [<-|]; [|reflexivity].
  destruct s as [|c3 s]; [reflexivity|]. rewrite app_cons_s. cbn [String.prefix] in *.
  destruct (ascii_dec "`" c3) as [<-|]; [|reflexivity].
  destruct s; discriminate H.
Qed.

Lemma bash_close_eq (s : string) :
  bash_close s =
  if String.prefix (nl ++ "```") s then Some ("", str_drop 4 s)
  else match s with
       | EmptyString => None
       | String c rest =>
           match bash_close rest with
           | Some (a, b) => Some (String c a, b)
           | None => None
           end
       end.
Proof. destruct s; reflexivity. Qed.

Lemma bash_close_app (cmd r : string) :
  py_contains (nl ++ "```") cmd = false ->
  bash_close (cmd ++ nl ++ "```" ++ r) = Some (cmd, r).
Proof.
  induction cmd as [|c cmd IH]; intros H.
  - rewrite app_nil_s, bash_close_eq.
    rewrite (proj2 (prefix_spec _ _)) by (exists r; symmetry; apply append_assoc_s).
    reflexivity.
  - cbn [py_contains] in H. apply orb_false_iff in H as [H1 H2].
    rewrite bash_close_eq, app_cons_s, no_straddle by exact H1.
    rewrite IH by exact H2. reflexivity.
Qed.

Lemma bash_match_eq (s : string) :
  bash_match s =
  match s with
  | EmptyString => None
  | String _ rest =>
      match (if String.prefix ("```bash" ++ nl) s then bash_close (str_drop 8 s) else None) with
      | Some r => Some r
      | None => bash_match rest
      end
  end.
Proof. destruct s; reflexivity. Qed.

Lemma bash_match_human (cmd : string) :
  py_contains (nl ++ "```") cmd = false ->
  bash_match (human_message cmd) = Some (cmd, "").
Proof.
  intros H. unfold human_message.
  change (nl ++ "```bash" ++ nl ++ cmd ++ nl ++ "```")
    with (String "010" ("```bash" ++ nl ++ cmd ++ nl ++ "```")).
  rewrite bash_match_eq.
  assert (Hp : String.prefix ("```bash" ++ nl) (String "010" ("```bash" ++ nl ++ cmd ++ nl ++ "```")) = false)
    by reflexivity.
  rewrite Hp. cbv beta iota.
  rewrite bash_match_eq.
  rewrite (proj2 (prefix_spec ("```bash" ++ nl) _)) by (eexists; symmetry; apply append_assoc_s).
  assert (Hd : str_drop 8 ("```bash" ++ nl ++ cmd ++ nl ++ "```") = cmd ++ nl ++ "```" ++ "")
    by reflexivity.
  rewrite Hd, bash_close_app by exact H.
  reflexivity.
Qed.

(** X3: the assistant message that [prompt] fabricates in
    human mode, ["
```bash
" + cmd + "
```"], read back by
    [_extract_code_from_blocks] as the first block of a prompt, gives
    [cmd.strip()], provided [cmd] does not contain ["
```"]. *)
Theorem extract_code_human_message (cmd : string) (rest : list PromptBlock) :
  py_contains (nl ++ "```") cmd = false ->
  extract_code findall_bash (ModelBlock (TextContentBlock (human_message cmd)) :: rest)
  = Some (py_strip cmd).
Proof.
  intros H. cbn [extract_code text_of_block]. unfold findall_bash.
  cbn [findall_bash_go]. rewrite bash_match_human by exact H. reflexivity.
Qed.

Lemma extract_code_human_message_witness :
  extract_code findall_bash [ModelBlock (TextContentBlock (human_message " ls -la "))] = Some "ls -la".
Proof. rewrite (extract_code_human_message " ls -la " []); reflexivity. Defined.

(** ** Mini-SWE agent: tool call ids *)
Lemma uint_dash_inj (d d' : Decimal.uint) (x y : string) :
  uint_to_string d ++ String "-" x = uint_to_string d' ++ String "-" y -> d = d' /\ x = y.
Proof.
  revert d'. induction d; intros [] H; cbn [uint_to_string] in H;
    rewrite ?app_cons_s, ?app_nil_s in H;
    try discriminate H;
    injection H as H;
    first [ subst; split; reflexivity
          | match goal with IH : forall d', _ |- _ =>
              destruct (IH _ H) as [-> ->]; split; reflexivity end ].
Qed.

(** X4: the tool call id [f"mini-bash-{seq}-{hex8}"] built by
    [execute_action] determines both the sequence number and the random
    suffix: two ids are equal only when both parts are. *)
Theorem tool_id_of_inj (a b : nat) (u1 u2 : string) :
  tool_id_of a u1 = tool_id_of b u2 -> a = b /\ u1 = u2.
Proof.
  unfold tool_id_of. intros H.
  apply (String.app_inj "mini-bash-") in H.
  unfold py_str_nat in H.
  destruct (uint_dash_inj _ _ _ _ H) as [Hd Hu]. split; [|exact Hu].
  assert (Hs : S a = S b).
  { apply py_str_nat_inj. unfold py_str_nat. rewrite Hd. reflexivity. }
  injection Hs as Hs. exact Hs.
Qed.

Lemma tool_id_of_inj_witness : 1 = 1 /\ "abcd1234" = "abcd1234".
Proof. apply (tool_id_of_inj 1 1 "abcd1234" "abcd1234"). reflexivity. Defined.


(** X5: when a whitelist pattern matches the command,
    [execute_action] asks no permission, whatever the client would answer:
    the command is executed and its result returned. *)
Theorem execute_action_whitelisted (re_match : string -> string -> outcome bool)
  (wl : list string) (tool_seq : nat) (uuid8 command : string)
  (resp : outcome PermissionOutcome) (base : outcome ExecResult) :
  any_match re_match wl command = Ok true ->
  let res := execute_action re_match wl tool_seq uuid8 command resp base [] in
  In (BaseExecute command) (snd res) /\
  (forall tid c, ~ In (PermissionRequested tid c) (snd res)) /\
  (forall r, base = Ok r -> fst res = Ok r).
Proof.
  intros Hm res. subst res. unfold execute_action.
  destruct (py_truthy_str (py_strip command)).
  - unfold Py.of_outcome at 1. rewrite Hm.
    destruct base as [r|e]; [|destruct e]; run_exec; split_cancel;
      (split; [tauto|]); (split; [intros tid c; intuition congruence|]);
      intros r' Hr; try discriminate Hr; injection Hr as ->; reflexivity.
  - destruct base as [r|e]; [|destruct e]; run_exec; split_cancel;
      (split; [tauto|]); (split; [intros tid c; intuition congruence|]);
      intros r' Hr; try discriminate Hr; injection Hr as ->; reflexivity.
Qed.

Lemma execute_action_whitelisted_witness :
  In (BaseExecute "ls -la")
     (snd (execute_action re_match_plain ["ls"] 0 "abcd1234" "ls -la" (Ok DeniedOutcome)
             (Ok {| output := ""; returncode := 0 |}) [])).
Proof.
  exact (proj1 (execute_action_whitelisted re_match_plain ["ls"] 0 "abcd1234" "ls -la"
                  (Ok DeniedOutcome) (Ok {| output := ""; returncode := 0 |}) eq_refl)).
Defined.

(** ** Example agent and example client *)
Lemma example_prompt_fold (str_other : json -> string) (sid : string) (blocks : list PromptBlock)
  (acc : list SessionNotification) :
  fold_right
    (fun b rest =>
       ExampleAgent.sessionUpdate
         {| sn_session_id := sid;
            sn_update := AgentMessageChunk (TextContentBlock (ExampleAgent.block_text str_other b)) |} ;;;
       rest) (Py.ret {| stop_reason := end_turn |}) blocks acc
  = (Ok {| stop_reason := end_turn |},
     app acc (map (fun b => chunk sid (ExampleAgent.block_text str_other b)) blocks)).
Proof.
  revert acc. induction blocks as [|b bs IH]; intros acc.
  - rewrite app_nil_r. reflexivity.
  - cbn [fold_right map]. unfold ExampleAgent.sessionUpdate. rewrite emit_then.
    rewrite IH, <- app_assoc. reflexivity.
Qed.

Lemma example_prompt_run (str_other : json -> string) (req : PromptRequest)
  (acc : list SessionNotification) :
  ExampleAgent.prompt str_other req acc
  = (Ok {| stop_reason := end_turn |},
     app acc (chunk (preq_session_id req) "Client sent: "
              :: map (fun b => chunk (preq_session_id req) (ExampleAgent.block_text str_other b))
                     (preq_prompt req))).
Proof.
  destruct req as [sid blocks]. unfold ExampleAgent.prompt. cbn [preq_session_id preq_prompt].
  unfold ExampleAgent.sessionUpdate at 1. rewrite emit_then.
  rewrite example_prompt_fold, <- app_assoc. reflexivity.
Qed.





(** X10: [EchoAgent.prompt] stops at the first block whose text
    cannot be read: the chunks of the blocks before it have been sent,
    the error is raised, and no later block is sent. *)
Theorem echo_prompt_stops (sid : string) (pre post : list PromptBlock) (b : PromptBlock)
  (texts : list string) (e : exc) (acc : list SessionNotification) :
  map EchoAgent.block_text pre = map Ok texts ->
  EchoAgent.block_text b = Raise e ->
  EchoAgent.prompt {| preq_session_id := sid; preq_prompt := app pre (b :: post) |} acc
  = (Raise e, app acc (map (chunk sid) texts)).
Proof.
  intros Hpre Hb. unfold EchoAgent.prompt. cbn [preq_session_id preq_prompt].
  revert texts acc Hpre. induction pre as [|p ps IH]; intros [|t ts] acc H; try discriminate H.
  - cbn [app fold_right]. rewrite Hb, app_nil_r. reflexivity.
  - cbn [map] in H. injection H as Hp Hps. cbn [app fold_right]. rewrite Hp, emit_then.
    rewrite (IH ts _ Hps), <- app_assoc. reflexivity.
Qed.

Lemma echo_prompt_stops_witness :
  EchoAgent.prompt {| preq_session_id := "sess-0";
                      preq_prompt := [ModelBlock (TextContentBlock "hi"); RawBlock [("text", JInt 3)];
                                      ModelBlock (TextContentBlock "never")] |} []
  = (Raise ValidationError, [chunk "sess-0" "hi"]).
Proof.
  exact (echo_prompt_stops "sess-0" [ModelBlock (TextContentBlock "hi")]
           [ModelBlock (TextContentBlock "never")] (RawBlock [("text", JInt 3)]) ["hi"]
           ValidationError [] eq_refl eq_refl).
Defined.

(** ** Example client: [interactive_loop] *)











(** X13: [setSessionMode] leaves every other session as it was, never
    adds or removes the addressed one, and changes nothing of it but the
    mode: the mode becomes [mode_id.lower()] when that is ["confirm"],
    ["yolo"] or ["human"], and stays as it was otherwise. *)
Theorem setSessionMode_only_mode (sid m : string) (tbl : gmap string Session) :
  (forall k, k <> sid -> setSessionMode sid m tbl !! k = tbl !! k) /\
  (is_Some (setSessionMode sid m tbl !! sid) <-> is_Some (tbl !! sid)) /\
  (forall s s', tbl !! sid = Some s -> setSessionMode sid m tbl !! sid = Some s' ->
   cwd s' = cwd s /\ agent s' = agent s /\ task s' = task s /\
   whitelist_actions (config s') = whitelist_actions (config s) /\
   confirm_exit (config s') = confirm_exit (config s) /\
   (In (py_lower m) valid_modes -> mode (config s') = py_lower m) /\
   (~ In (py_lower m) valid_modes -> mode (config s') = mode (config s))).
Proof.
  unfold setSessionMode.
  destruct (tbl !! sid) as [s0|] eqn:Hs.
  2:{ split; [reflexivity|]. rewrite Hs. split; [reflexivity|]. intros s s' H. discriminate H. }
  destruct (existsb (String.eqb (py_lower m)) valid_modes) eqn:Hv.
  - split; [intros k Hk; apply lookup_insert_ne; congruence|].
    rewrite lookup_insert_eq. split; [split; intros _; eexists; reflexivity|].
    intros s s' H H'. injection H as <-. injection H' as <-. cbn.
    repeat split; try reflexivity.
    intros Hn. exfalso. apply Hn.
    apply existsb_exists in Hv as [x [Hx Heq]]. apply String.eqb_eq in Heq. subst x. exact Hx.
  - split; [reflexivity|]. rewrite Hs. split; [reflexivity|].
    intros s s' H H'. rewrite H in H'. injection H' as <-. injection H as <-.
    repeat split; try reflexivity.
    intros Hin. exfalso. apply not_true_iff_false in Hv. apply Hv.
    apply existsb_exists. exists (py_lower m). split; [exact Hin|apply String.eqb_refl].
Qed.

Lemma setSessionMode_only_mode_witness :
  setSessionMode "sess-1" "YOLO"
    (<["sess-2" := sample_session]> (<["sess-1" := sample_session]> (∅ : gmap string Session)))
    !! "sess-2" = Some sample_session.
Proof.
  rewrite (proj1 (setSessionMode_only_mode "sess-1" "YOLO" _) "sess-2") by discriminate.
  apply lookup_insert_eq.
Defined.

(** ** Schema generator: the renaming order *)


Lemma insert_by_len_perm (kv : string * string) (l : list (string * string)) :
  Permutation (kv :: l) (insert_by_len kv l).
Proof.
  induction l as [|y r IH]; cbn [insert_by_len]; [reflexivity|].
  destruct (Nat.ltb _ _); [reflexivity|].
  etransitivity; [apply perm_swap|]. constructor. exact IH.
Qed.

Lemma fold_insert_perm (l acc : list (string * string)) :
  Permutation (app l acc) (fold_left (fun acc kv => insert_by_len kv acc) l acc).
Proof.
  revert acc. induction l as [|x l IH]; intros acc; [reflexivity|].
  cbn [fold_left app]. rewrite <- IH.
  etransitivity; [apply Permutation_middle|].
  apply Permutation_app_head. apply insert_by_len_perm.
Qed.

Lemma insert_by_len_hd (y kv : string * string) (l : list (string * string)) :
  HdRel len_ge y l -> len_ge y kv -> HdRel len_ge y (insert_by_len kv l).
Proof.
  intros Hl Hk. destruct l as [|z r]; cbn [insert_by_len].
  - constructor. exact Hk.
  - destruct (Nat.ltb _ _); constructor; [exact Hk|]. inversion Hl; assumption.
Qed.

Lemma insert_by_len_sorted (kv : string * string) (l : list (string * string)) :
  Sorted len_ge l -> Sorted len_ge (insert_by_len kv l).
Proof.
  induction l as [|y r IH]; intros Hs; cbn [insert_by_len].
  - repeat constructor.
  - destruct (Nat.ltb (String.length (fst y)) (String.length (fst kv))) eqn:Hlt.
    + apply Nat.ltb_lt in Hlt. constructor; [exact Hs|]. constructor. unfold len_ge. lia.
    + apply Nat.ltb_ge in Hlt. apply Sorted_inv in Hs as [Hr Hhd].
      constructor; [apply IH, Hr|]. apply insert_by_len_hd; [exact Hhd|exact Hlt].
Qed.

Lemma fold_insert_sorted (l acc : list (string * string)) :
  Sorted len_ge acc -> Sorted len_ge (fold_left (fun acc kv => insert_by_len kv acc) l acc).
Proof.
  revert acc. induction l as [|x l IH]; intros acc H; [exact H|].
  apply IH, insert_by_len_sorted, H.
Qed.



Lemma len_ge_trans : Transitive len_ge.
Proof. intros x y z; unfold len_ge; lia. Qed.

Lemma filter_shorter (n : nat) (l : list (string * string)) :
  Forall (fun kv => String.length (fst kv) < n) l -> List.filter (len_is n) l = [].
Proof.
  induction 1 as [|x l Hx _ IH]; [reflexivity|].
  cbn [List.filter]. unfold len_is at 1.
  replace (Nat.eqb (String.length (fst x)) n) with false by (symmetry; apply Nat.eqb_neq; lia).
  exact IH.
Qed.

Lemma insert_by_len_filter (n : nat) (kv : string * string) (l : list (string * string)) :
  Sorted len_ge l ->
  List.filter (len_is n) (insert_by_len kv l)
  = app (List.filter (len_is n) l) (if len_is n kv then [kv] else []).
Proof.
  induction l as [|y r IH]; intros Hs; cbn [insert_by_len].
  - reflexivity.
  - destruct (Nat.ltb (String.length (fst y)) (String.length (fst kv))) eqn:Hlt.
    + apply Nat.ltb_lt in Hlt.
      apply Sorted_StronglySorted in Hs; [|exact len_ge_trans].
      apply StronglySorted_inv in Hs as [_ Hall].
      change (List.filter (len_is n) (kv :: y :: r))
        with (if len_is n kv then kv :: List.filter (len_is n) (y :: r)
              else List.filter (len_is n) (y :: r)).
      destruct (len_is n kv) eqn:Hk.
      * unfold len_is in Hk. apply Nat.eqb_eq in Hk. subst n.
        rewrite filter_shorter; [reflexivity|].
        constructor; [exact Hlt|].
        eapply Forall_impl; [exact Hall|]. intros z Hz. unfold len_ge in Hz. lia.
      * rewrite app_nil_r. reflexivity.
    + apply Sorted_inv in Hs as [Hr _].
      cbn [List.filter]. destruct (len_is n y); rewrite IH by exact Hr; reflexivity.
Qed.

Lemma fold_insert_filter (n : nat) (l acc : list (string * string)) :
  Sorted len_ge acc ->
  List.filter (len_is n) (fold_left (fun acc kv => insert_by_len kv acc) l acc)
  = app (List.filter (len_is n) acc) (List.filter (len_is n) l).
Proof.
  revert acc. induction l as [|x l IH]; intros acc H; cbn [fold_left List.filter].
  - rewrite app_nil_r. reflexivity.
  - rewrite IH by (apply insert_by_len_sorted, H).
    rewrite insert_by_len_filter by exact H.
    rewrite <- app_assoc. destruct (len_is n x); reflexivity.
Qed.

Lemma sort_by_len_desc_perm (l : list (string * string)) :
  Permutation l (sort_by_len_desc l).
Proof. unfold sort_by_len_desc. rewrite <- fold_insert_perm, app_nil_r. reflexivity. Qed.

(** X19: [_rename_numbered_classes] visits the entries of the map
    longest old name first, and entries whose names have the same length
    in map order (Python's sort is stable): the visiting order is a
    permutation of the map, sorted by decreasing length, and keeps the
    relative order of each length class. *)
Theorem sort_by_len_desc_spec (l : list (string * string)) :
  Permutation l (sort_by_len_desc l) /\
  Sorted len_ge (sort_by_len_desc l) /\
  (forall n, List.filter (len_is n) (sort_by_len_desc l) = List.filter (len_is n) l).
Proof.
  unfold sort_by_len_desc. split; [|split].
  - apply sort_by_len_desc_perm.
  - apply fold_insert_sorted. constructor.
  - intros n. rewrite fold_insert_filter by constructor. reflexivity.
Qed.

(** ** Schema generator: text without numbered names *)
Lemma replace_go_absent (old new s : string) :
  py_contains old s = false -> replace_go old new 0 s = s.
Proof.
  induction s as [|c s IH]; intros H; [reflexivity|].
  cbn [py_contains] in H. apply orb_false_iff in H as [H1 H2].
  cbn [replace_go]. rewrite H1, IH by exact H2. reflexivity.
Qed.

Lemma py_replace_absent (old new s : string) :
  py_contains old s = false -> py_replace old new s = s.
Proof.
  intros H. unfold py_replace.
  destruct (String.eqb old "") eqn:He.
  - apply String.eqb_eq in He. subst old. destruct s; discriminate H.
  - apply replace_go_absent, H.
Qed.

Lemma contains_infix (a k b s : string) :
  py_contains k s = false -> py_contains (a ++ k ++ b) s = false.
Proof.
  intros H. destruct (py_contains (a ++ k ++ b) s) eqn:E; [|reflexivity].
  apply contains_spec in E as (x & y & ->).
  rewrite <- H. symmetry. apply contains_spec.
  exists (x ++ a), (b ++ y). rewrite !append_assoc_s. reflexivity.
Qed.

Lemma append_nil_r_s (s : string) : s ++ "" = s.
Proof. induction s as [|c s IH]; [reflexivity|]. rewrite app_cons_s, IH. reflexivity. Qed.

Lemma rename_patterns_infix (old new : string) (p : string * string) :
  In p (rename_patterns old new) -> exists a b, fst p = a ++ old ++ b.
Proof.
  intros Hin. cbn [rename_patterns In] in Hin.
  repeat destruct Hin as [<-|Hin]; try contradiction; cbn [fst].
  - exists "class ", "("; rewrite ?append_nil_r_s; reflexivity.
  - exists "", " |"; rewrite ?append_nil_r_s; reflexivity.
  - exists "| ", ""; rewrite ?append_nil_r_s; reflexivity.
  - exists ": ", ""; rewrite ?append_nil_r_s; reflexivity.
  - exists "[", "]"; rewrite ?append_nil_r_s; reflexivity.
  - exists "List[", "]"; rewrite ?append_nil_r_s; reflexivity.
  - exists "Optional[", "]"; rewrite ?append_nil_r_s; reflexivity.
  - exists "Union[", ""; rewrite ?append_nil_r_s; reflexivity.
  - exists ", ", "]"; rewrite ?append_nil_r_s; reflexivity.
  - exists "(", ","; rewrite ?append_nil_r_s; reflexivity.
  - exists "(", ")"; rewrite ?append_nil_r_s; reflexivity.
  - exists (nl ++ "        "), ""; rewrite ?append_nil_r_s; reflexivity.
  - exists (nl ++ "            "), ""; rewrite ?append_nil_r_s; reflexivity.
  - exists " ", "("; rewrite ?append_nil_r_s; reflexivity.
  - exists "=", "("; rewrite ?append_nil_r_s; reflexivity.
  - exists "return ", "("; rewrite ?append_nil_r_s; reflexivity.
  - exists "[", "])"; rewrite ?append_nil_r_s; reflexivity.
  - exists ("root: Annotated[" ++ nl ++ "        "), ","; rewrite ?append_nil_r_s; reflexivity.
  - exists ("Annotated[" ++ nl ++ "        "), ""; rewrite ?append_nil_r_s; reflexivity.
Qed.

Lemma rename_entry_absent (content : string) (kv : string * string) :
  py_contains (fst kv) content = false -> rename_entry content kv = content.
Proof.
  intros H. unfold rename_entry.
  assert (Hall : forall p, In p (rename_patterns (fst kv) (snd kv)) -> py_contains (fst p) content = false).
  { intros p Hp. destruct (rename_patterns_infix _ _ p Hp) as (a & b & ->). apply contains_infix, H. }
  induction (rename_patterns (fst kv) (snd kv)) as [|p ps IH]; [reflexivity|].
  cbn [fold_left]. rewrite py_replace_absent by (apply Hall; left; reflexivity).
  apply IH. intros q Hq. apply Hall. right. exact Hq.
Qed.

(** X20: a schema text containing none of the map's old
    class names is written back unchanged. *)
Theorem rename_numbered_classes_untouched (content : string) :
  (forall old new, In (old, new) GenSchema.rename_map -> py_contains old content = false) ->
  rename_numbered_classes content = content.
Proof.
  intros H. unfold rename_numbered_classes.
  assert (Hs : forall kv, In kv (sort_by_len_desc GenSchema.rename_map) -> py_contains (fst kv) content = false).
  { intros [old new] Hin. apply (H old new).
    apply (Permutation_in _ (Permutation_sym (sort_by_len_desc_perm GenSchema.rename_map))).
    exact Hin. }
  induction (sort_by_len_desc GenSchema.rename_map) as [|kv r IH]; [reflexivity|].
  cbn [fold_left]. rewrite rename_entry_absent by (apply Hs; left; reflexivity).
  apply IH. intros q Hq. apply Hs. right. exact Hq.
Qed.

Lemma rename_numbered_classes_untouched_witness :
  rename_numbered_classes "class Plan(BaseModel):" = "class Plan(BaseModel):".
Proof.
  apply rename_numbered_classes_untouched.
  intros old new Hin. cbn [GenSchema.rename_map In] in Hin.
  repeat destruct Hin as [Hin|Hin]; try contradiction; injection Hin as <- <-; vm_compute; reflexivity.
Defined.


(** ** Mini-SWE agent: runs of [prompt] *)

(** X16: in human mode, on a started session, a prompt
    without a (non-blank) bash block gets the single chunk ["Human mode:
    please submit a bash command."] and [end_turn]; the model is not
    queried and the session table is unchanged. *)
Theorem prompt_human_no_command (o : PromptOracles) (sid : string) (blocks : list PromptBlock)
  (tbl : gmap string Session) (l : list ev) (s : Session) (a : AgentSt) (t : string) :
  tbl !! sid = Some s -> agent s = Some a -> task s = Some t -> py_truthy_str t = true ->
  mode (config s) = "human" -> o_send o = Ok tt ->
  (extract_code (o_findall_bash o) blocks = None \/ extract_code (o_findall_bash o) blocks = Some "") ->
  MiniSwe.prompt o {| preq_session_id := sid; preq_prompt := blocks |} {| sessions := tbl; log := l |}
  = (Ok {| stop_reason := end_turn |},
     {| sessions := tbl;
        log := app l [Sent (chunk sid "Human mode: please submit a bash command.")] |}).
Proof.
  intros Hs Ha Ht Htr Hm Hsend Hex.
  destruct o as [pcwd cr rs ri q cost obs snd fa]; cbn [o_send o_findall_bash] in *; subst snd.
  destruct s as [c ag tk [md wl ce]]; cbn [agent task config mode] in *; subst ag tk md.
  unfold MiniSwe.prompt, MiniSwe.prompt_step, Py.try_except. cbn [preq_session_id preq_prompt].
  destruct Hex as [Hex|Hex]; mrun; reflexivity.
Qed.



Lemma prompt_human_no_command_witness :
  MiniSwe.prompt (sample_oracles (Ok "unused") (Ok tt))
    {| preq_session_id := "sess-1"; preq_prompt := [ModelBlock (TextContentBlock "run it")] |}
    {| sessions := <["sess-1" := human_session]> ∅; log := [] |}
  = (Ok {| stop_reason := end_turn |},
     {| sessions := <["sess-1" := human_session]> ∅;
        log := [Sent (chunk "sess-1" "Human mode: please submit a bash command.")] |}).
Proof.
  apply (prompt_human_no_command _ "sess-1" _ _ [] human_session {| emit_updates := true |} "fix the bug");
    first [reflexivity | left; reflexivity].
Defined.

(** X17: in human mode, on a started session, a prompt with a
    bash block records the fabricated assistant message (streamed if
    updates are on) and executes it through the observation, without
    querying the model; the session table is unchanged. *)
Theorem prompt_human_command (o : PromptOracles) (sid : string) (blocks : list PromptBlock)
  (tbl : gmap string Session) (l : list ev) (s : Session) (a : AgentSt) (t cmd : string) :
  tbl !! sid = Some s -> agent s = Some a -> task s = Some t -> py_truthy_str t = true ->
  mode (config s) = "human" -> o_observation o = Ok tt ->
  extract_code (o_findall_bash o) blocks = Some cmd -> py_truthy_str cmd = true ->
  MiniSwe.prompt o {| preq_session_id := sid; preq_prompt := blocks |} {| sessions := tbl; log := l |}
  = (Ok {| stop_reason := end_turn |},
     {| sessions := tbl;
        log := app l (app (Message "assistant" (human_message cmd)
                           :: (if emit_updates a
                               then [Scheduled (AgentMessageChunk (TextContentBlock (human_message cmd)))]
                               else []))
                          [ObservationCalled]) |}).
Proof.
  intros Hs Ha Ht Htr Hm Hobs Hex Hcmd.
  destruct o as [pcwd cr rs ri q cost obs snd fa]; cbn [o_observation o_findall_bash] in *; subst obs.
  destruct s as [c ag tk [md wl ce]]; cbn [agent task config mode] in *; subst ag tk md.
  destruct a as [[]].
  all: unfold MiniSwe.prompt, MiniSwe.prompt_step, Py.try_except; cbn [preq_session_id preq_prompt];
    mrun; rewrite <- !app_assoc; reflexivity.
Qed.



Lemma prompt_human_command_witness :
  log (snd (MiniSwe.prompt bash_oracles
              {| preq_session_id := "sess-1";
                 preq_prompt := [ModelBlock (TextContentBlock (human_message "ls"))] |}
              {| sessions := <["sess-1" := human_session]> ∅; log := [] |}))
  = [Message "assistant" (human_message "ls");
     Scheduled (AgentMessageChunk (TextContentBlock (human_message "ls")));
     ObservationCalled].
Proof.
  rewrite (prompt_human_command bash_oracles "sess-1" _ _ [] human_session {| emit_updates := true |}
             "fix the bug" "ls"); reflexivity.
Defined.



(** X15: when the agent cannot be created (an [Exception]),
    [prompt] sends only the chunk ["mini-swe-agent load error: Failed to
    load mini-swe-agent: " + str(e)] and returns [end_turn]; the session
    keeps no agent, so the next prompt tries again. *)
Theorem prompt_load_error (o : PromptOracles) (req : PromptRequest) (tbl : gmap string Session)
  (l : list ev) (e : exc) :
  match tbl !! preq_session_id req with Some s => agent s = None | None => True end ->
  o_create o = Raise e -> is_Exception e = true -> o_send o = Ok tt ->
  MiniSwe.prompt o req {| sessions := tbl; log := l |}
  = (Ok {| stop_reason := end_turn |},
     {| sessions := match tbl !! preq_session_id req with
                    | Some _ => tbl
                    | None => <[preq_session_id req := fresh_session o]> tbl
                    end;
        log := app l [Sent (chunk (preq_session_id req)
                                  ("mini-swe-agent load error: Failed to load mini-swe-agent: "
                                   ++ exc_str e))] |}).
Proof.
  intros Hag Hcr He Hsend.
  destruct o as [pcwd cr rs ri q cost obs snd fa]; cbn [o_create o_send] in *; subst cr snd.
  unfold MiniSwe.prompt, fresh_session.
  destruct (tbl !! preq_session_id req) as [[c ag tk cfg]|] eqn:Hs;
    [cbn [agent] in Hag; subst ag|]; mrun; reflexivity.
Qed.

Lemma prompt_load_error_witness :
  MiniSwe.prompt {| o_process_cwd := "/repo"; o_create := Raise (OtherException "No module named 'minisweagent'");
                    o_render_system := Ok "sys"; o_render_instance := Ok "inst"; o_query := Ok "unused";
                    o_cost_text := "__COST__:0.00"; o_observation := Ok tt; o_send := Ok tt;
                    o_findall_bash := fun _ => [] |}
    S2_request {| sessions := ∅; log := [] |}
  = (Ok {| stop_reason := end_turn |},
     {| sessions := <["sess-0" := {| cwd := "/repo"; agent := None; task := None; config := default_config |}]> ∅;
        log := [Sent (chunk "sess-0" "mini-swe-agent load error: Failed to load mini-swe-agent: No module named 'minisweagent'")] |}).
Proof.
  rewrite (prompt_load_error _ _ _ _ (OtherException "No module named 'minisweagent'")); reflexivity.
Defined.

(** X18: whenever the body of [prompt]'s [try] raises [Submitted(m)]
    (in any mode, on the first turn of a task or a later one), the handler
    records [m] as a user message; with [confirm_exit] it then sends the
    "Agent finished" chunk and resets the session's task, so that the next
    prompt starts a new task; without it the session is left as it was.
    The handler gives no early response, so [prompt] returns [end_turn]. *)
Theorem prompt_submitted_handler (o : PromptOracles) (params : PromptRequest) (st : MState)
  (tbl' : gmap string Session) (l' : list ev) (m : string) (s : Session) :
  MiniSwe.prompt_step o params st = (Raise (Submitted m), {| sessions := tbl'; log := l' |}) ->
  tbl' !! preq_session_id params = Some s -> o_send o = Ok tt ->
  Py.try_except (MiniSwe.prompt_step o params) (MiniSwe.prompt_handler o (preq_session_id params)) st
  = (Ok None,
     if confirm_exit (config s)
     then {| sessions := <[preq_session_id params :=
                             {| cwd := cwd s; agent := agent s; task := None; config := config s |}]> tbl';
             log := app l' [Message "user" m; Sent (chunk (preq_session_id params) MiniSwe.finished_text)] |}
     else {| sessions := tbl'; log := app l' [Message "user" m] |}).
Proof.
  intros Hstep Hs Hsend.
  unfold Py.try_except. rewrite Hstep. cbn [MiniSwe.prompt_handler].
  destruct o as [pcwd cr rs ri q cost obs snd fa]; cbn [o_send] in Hsend; subst snd.
  destruct s as [c ag tk [md wl ce]].
  destruct ag as [[[]]|]; destruct ce;
    mrun; rewrite ?insert_insert_eq, <- ?app_assoc; reflexivity.
Qed.

Lemma prompt_submitted_handler_witness :
  let req := {| preq_session_id := "sess-1"; preq_prompt := [ModelBlock (TextContentBlock "go on")] |} in
  let st0 := {| sessions := <["sess-1" := confirm_session]> (∅ : gmap string Session); log := [] |} in
  task <$> (sessions (snd (Py.try_except (MiniSwe.prompt_step submit_oracles req)
                             (MiniSwe.prompt_handler submit_oracles (preq_session_id req)) st0))
            !! "sess-1")
  = Some None.
Proof.
  intros req st0.
  rewrite (prompt_submitted_handler submit_oracles req st0
             (<["sess-1" := confirm_session]> ∅)
             [QueryCalled; Message "assistant" "reply";
              Scheduled (AgentMessageChunk (TextContentBlock "reply"));
              Scheduled (AgentThoughtChunk (TextContentBlock "__COST__:0.00"));
              ObservationCalled]
             "done" confirm_session).
  - reflexivity.
  - vm_compute. reflexivity.
  - reflexivity.
  - reflexivity.
Defined.

(** X14: the first prompt on an unknown session id (agent creation,
    templates, model query and observation all succeeding) registers the
    session with the process directory, the default config (not the one
    built from the environment), the agent with streaming on and the task
    built from the prompt; it seeds the system and user messages without
    streaming them, queries the model, streams its reply and the cost hint,
    executes the observation, and returns [end_turn]. *)
Theorem prompt_first_turn (o : PromptOracles) (sid : string) (blocks : list PromptBlock)
  (tbl : gmap string Session) (l : list ev) (sys inst c : string) :
  tbl !! sid = None -> o_create o = Ok tt ->
  o_render_system o = Ok sys -> o_render_instance o = Ok inst ->
  o_query o = Ok c -> o_observation o = Ok tt ->
  MiniSwe.prompt o {| preq_session_id := sid; preq_prompt := blocks |} {| sessions := tbl; log := l |}
  = (Ok {| stop_reason := end_turn |},
     {| sessions := <[sid := {| cwd := o_process_cwd o; agent := Some {| emit_updates := true |};
                                task := Some (build_task blocks); config := default_config |}]> tbl;
        log := app l [Message "system" sys; Message "user" inst; QueryCalled; Message "assistant" c;
                      Scheduled (AgentMessageChunk (TextContentBlock c));
                      Scheduled (AgentThoughtChunk (TextContentBlock (o_cost_text o)));
                      ObservationCalled] |}).
Proof.
  intros Hs Hcr Hsys Hinst Hq Hobs.
  destruct o as [pcwd cr rs ri q cost obs snd fa];
    cbn [o_create o_render_system o_render_instance o_query o_observation o_cost_text o_process_cwd] in *;
    subst cr rs ri q obs.
  unfold MiniSwe.prompt, MiniSwe.prompt_step, Py.try_except.
  cbn [preq_session_id preq_prompt]; unfold default_config; mrun.
  rewrite ?insert_insert_eq, <- ?app_assoc. reflexivity.
Qed.

Lemma prompt_first_turn_witness :
  log (snd (MiniSwe.prompt (sample_oracles (Ok "reply") (Ok tt)) S2_request {| sessions := ∅; log := [] |}))
  = [Message "system" "sys"; Message "user" "inst"; QueryCalled; Message "assistant" "reply";
     Scheduled (AgentMessageChunk (TextContentBlock "reply"));
     Scheduled (AgentThoughtChunk (TextContentBlock "__COST__:0.00"));
     ObservationCalled].
Proof.
  unfold S2_request.
  rewrite (prompt_first_turn (sample_oracles (Ok "reply") (Ok tt)) "sess-0" _ ∅ [] "sys" "inst" "reply");
    reflexivity.
Defined.


(** ** Schema generator: failures of the meta writer; [execute_action] *)

(** X21: writing [meta.py] fails exactly when the meta document is
    not an object ([AttributeError]), or its [version] is [null], a list
    or an object ([TypeError]), [NaN] or a string that [int()] rejects
    ([ValueError]), or an infinity ([OverflowError]); a missing version,
    an integer, a boolean or a finite float never fails. *)
Theorem write_meta_error (int_of_str : string -> option Z) (meta : json) (e : exc) :
  GenSchema.write_meta int_of_str meta = Raise e <->
  (match meta with JObj _ => False | _ => e = AttributeError end) \/
  (exists kvs j, meta = JObj kvs /\ dict_lookup kvs "version" = Some j /\
     ((e = TypeError /\ match j with JNull | JArr _ | JObj _ => True | _ => False end) \/
      (e = ValueError /\ (j = JNaN \/ exists s, j = JStr s /\ int_of_str s = None)) \/
      (e = OverflowError /\ exists neg, j = JInf neg))).
Proof.
  destruct meta as [| | | | | | |l|kvs]; cbn [GenSchema.write_meta];
    try (split; [intros H; injection H as <-; left; reflexivity|];
         intros [H|(kvs & j & Hm & _)]; [subst; reflexivity|discriminate Hm]).
  unfold dict_get. split.
  - intros H. right. exists kvs.
    destruct (dict_lookup kvs "version") as [j|] eqn:Hv; [|discriminate H].
    exists j. split; [reflexivity|]. split; [reflexivity|].
    destruct j; cbn [GenSchema.py_int] in H; try discriminate H;
      try (injection H as <-; left; split; [reflexivity|exact I]).
    + injection H as <-. right. left. split; [reflexivity|left; reflexivity].
    + injection H as <-. right. right. split; [reflexivity|eexists; reflexivity].
    + destruct (int_of_str s) eqn:Hs; [discriminate H|]. injection H as <-.
      right. left. split; [reflexivity|]. right. exists s. split; [reflexivity|exact Hs].
  - intros [[]|(kvs' & j & Hm & Hv & Hj)]. injection Hm as <-. rewrite Hv.
    destruct Hj as [[-> Hj]|[[-> [->|(s & -> & Hs)]]|[-> [neg ->]]]].
    + destruct j; try contradiction; reflexivity.
    + reflexivity.
    + cbn [GenSchema.py_int]. rewrite Hs. reflexivity.
    + reflexivity.
Qed.

Lemma write_meta_error_witness :
  GenSchema.write_meta (fun _ => None) (JObj [("version", JInf false)]) = Raise OverflowError.
Proof.
  apply write_meta_error. right. exists [("version", JInf false)], (JInf false).
  split; [reflexivity|]. split; [reflexivity|]. right. right. split; [reflexivity|].
  exists false. reflexivity.
Defined.

(** X22: a session opened by [newSession] and then prompted keeps the
    configuration read from the environment at creation (the mode, the
    parsed whitelist and the confirm-exit flag); the first prompt only
    attaches the agent and the task built from the prompt. *)
Theorem newSession_then_prompt (json_loads_list : string -> outcome (list string)) (env : Env)
  (uuid12 params_cwd : string) (tbl : gmap string Session) (o : PromptOracles)
  (blocks : list PromptBlock) (l : list ev) (sys inst c : string) :
  o_create o = Ok tt -> o_render_system o = Ok sys -> o_render_instance o = Ok inst ->
  o_query o = Ok c -> o_observation o = Ok tt ->
  let (sid, tbl') := miniswe_newSession json_loads_list env uuid12 params_cwd tbl in
  sessions (snd (MiniSwe.prompt o {| preq_session_id := sid; preq_prompt := blocks |}
                   {| sessions := tbl'; log := l |})) !! sid
  = Some {| cwd := params_cwd; agent := Some {| emit_updates := true |};
            task := Some (build_task blocks); config := config_from_env json_loads_list env |}.
Proof.
  intros Hcr Hsys Hinst Hq Hobs.
  destruct o as [pcwd cr rs ri q cost obs snd fa];
    cbn [o_create o_render_system o_render_instance o_query o_observation] in *;
    subst cr rs ri q obs.
  unfold miniswe_newSession, MiniSwe.prompt, MiniSwe.prompt_step, Py.try_except.
  cbn [preq_session_id preq_prompt]. unfold config_from_env. mrun.
  rewrite ?insert_insert_eq. reflexivity.
Qed.


Lemma newSession_then_prompt_witness :
  sessions (snd (MiniSwe.prompt (sample_oracles (Ok "reply") (Ok tt))
                   {| preq_session_id := "sess-abc"; preq_prompt := [] |}
                   {| sessions := snd (miniswe_newSession (fun _ => Ok ["ls"])
                                         {| MINI_SWE_WHITELIST := Some "[ls]";
                                            MINI_SWE_CONFIRM_EXIT := Some "No" |}
                                         "abc" "/work" (∅ : gmap string Session));
                      log := [] |})) !! "sess-abc"
  = Some {| cwd := "/work"; agent := Some {| emit_updates := true |};
            task := Some (build_task []);
            config := {| mode := "confirm"; whitelist_actions := ["ls"]; confirm_exit := false |} |}.
Proof.
  exact (newSession_then_prompt (fun _ => Ok ["ls"])
           {| MINI_SWE_WHITELIST := Some "[ls]"; MINI_SWE_CONFIRM_EXIT := Some "No" |}
           "abc" "/work" ∅ (sample_oracles (Ok "reply") (Ok tt)) [] [] "sys" "inst" "reply"
           eq_refl eq_refl eq_refl eq_refl eq_refl).
Defined.
